(** * Burn-My-Windows, [src/Fire.js]: the fire effect

    A shallow embedding of the effect class [Fire] and of the host objects it
    drives (the [Gio.Settings] store, the preferences widgets, the shader
    object), followed by the properties proved about it.

    The methods of [Fire] and of its shader class are functions on explicit
    state: the store, the preferences dialog, the shader object, the shell
    process. Calls into the host that only leave a trace (resolving a
    uniform, writing a uniform, writing a key) are journalled in that state,
    so that "how many" and "in which order" can be stated. What the source
    takes from outside this file (the translation function, the compiled
    shader program, the colour parser, the base class [Shader]) is the class
    [Host].

    JavaScript numbers are IEEE 754 binary64 values: they are Rocq's primitive
    floats, so that [c.red / 255] and the preset literals are the very numbers
    the program computes with. *)

From Stdlib Require Import PrimFloat Uint63 ZArith.
From Stdlib.Strings Require Import Byte.
From stdpp Require Import gmap strings list pretty.

Set Warnings "-inexact-float".


(** ** The configuration store ([Gio.Settings]) *)

Module Settings.

(** The typed values the keys of this effect hold. *)
Inductive value :=
| VDouble (d : float)
| VBoolean (b : bool)
| VString (s : string)
| VInt (n : Z).

Inductive vtype := TDouble | TBoolean | TString | TInt.

Definition type_of (v : value) : vtype :=
  match v with
  | VDouble _ => TDouble
  | VBoolean _ => TBoolean
  | VString _ => TString
  | VInt _ => TInt
  end.

Definition vtype_eqb (a b : vtype) : bool :=
  match a, b with
  | TDouble, TDouble | TBoolean, TBoolean | TString, TString
  | TInt, TInt => true
  | _, _ => false
  end.

(** A write call received by the store. *)
Inductive write :=
| WSet (key : string) (v : value)
| WReset (key : string).

(** The store: the compiled schema (each declared key with its default, whose
    constructor is the key's type), the values written over the defaults,
    and the write calls received so far, oldest first. *)
Record t := mk {
  schema : gmap string value;
  user : gmap string value;
  journal : list write;
}.

(** Reading a key gives the written value, or the schema's default. A key
    the schema does not declare is a fatal error. *)
Definition get_value (s : t) (key : string) : option value :=
  match schema s !! key with
  | None => None
  | Some dflt => Some (default dflt (user s !! key))
  end.

(** The typed getters; reading a key at another type than its own is an
    error as well. *)
Definition get_double (s : t) (key : string) : option float :=
  match get_value s key with
  | Some (VDouble d) => Some d
  | _ => None
  end.

Definition get_boolean (s : t) (key : string) : option bool :=
  match get_value s key with
  | Some (VBoolean b) => Some b
  | _ => None
  end.

Definition get_string (s : t) (key : string) : option string :=
  match get_value s key with
  | Some (VString x) => Some x
  | _ => None
  end.

(** Code that writes to the store: a state and error monad over [t]. *)
Definition M (A : Type) : Type := t → option (A * t).

Definition ret {A} (a : A) : M A := λ s, Some (a, s).

Definition bind {A B} (m : M A) (k : A → M B) : M B :=
  λ s, match m s with
       | Some (a, s') => k a s'
       | None => None
       end.

(** The state a command leaves, when it does not fail. *)
Definition exec {A} (m : M A) (s : t) : option t := snd <$> m s.

(** A typed write: the only validation is that the key is declared with the
    type of the value. *)
Definition set_value (key : string) (v : value) : M unit :=
  λ s, match schema s !! key with
       | Some dflt =>
           if vtype_eqb (type_of dflt) (type_of v)
           then Some (tt, {| schema := schema s;
                             user := <[key := v]> (user s);
                             journal := journal s ++ [WSet key v] |})
           else None
       | None => None
       end.

Definition set_double (key : string) (d : float) : M unit :=
  set_value key (VDouble d).

Definition set_boolean (key : string) (b : bool) : M unit :=
  set_value key (VBoolean b).

Definition set_string (key : string) (x : string) : M unit :=
  set_value key (VString x).

(** [reset] drops the written value, so that the default shows again. *)
Definition reset (key : string) : M unit :=
  λ s, match schema s !! key with
       | Some _ =>
           Some (tt, {| schema := schema s;
                        user := delete key (user s);
                        journal := journal s ++ [WReset key] |})
       | None => None
       end.

(** The schema declares [key] with type [ty]. *)
Definition declares (s : t) (key : string) (ty : vtype) : Prop :=
  type_of <$> schema s !! key = Some ty.

(** The default the schema declares for [key]. *)
Definition default_of (s : t) (key : string) : option value :=
  schema s !! key.

End Settings.

#[global] Instance settings_ret : MRet Settings.M := @Settings.ret.
#[global] Instance settings_bind : MBind Settings.M :=
  λ A B k m, Settings.bind m k.

(** ** Values handed to the host *)

(** The JavaScript values this file passes in uniform arrays. *)
Inductive jsval :=
| JNumber (x : float)
| JBoolean (b : bool).

(** ECMAScript's ToNumber, which the binding applies to each element of an
    array of floats. *)
Definition to_number (v : jsval) : float :=
  match v with
  | JNumber x => x
  | JBoolean true => 1
  | JBoolean false => 0
  end.

(** A [Clutter.Color]: four unsigned bytes. *)
Record Color := mkColor {
  red : byte;
  green : byte;
  blue : byte;
  alpha : byte;
}.

(** The JavaScript number a byte field reads as. *)
Definition channel (b : byte) : float :=
  of_uint63 (Uint63.of_Z (Z.of_N (Byte.to_N b))).

(** The state [Shell.GLSLEffect] keeps for one shader object: the names
    passed to [get_uniform_location] and the calls of [set_uniform_float]
    (location, number of components, values), oldest first. *)
Record GLSLEffect := mkGLSL {
  located : list string;
  written : list (Z * Z * list float);
}.

(** The effect object: its only field is the lazily registered shader class
    (the handle [GObject.registerClass] returned). *)
Record Fire := mkFire {
  _ShaderClass : option nat;
}.

(** What this file takes from its environment: the translation function [_],
    the locations of the compiled shader program's uniforms (-1 for a name it
    does not have), [Clutter.Color.from_string], and the two methods of the
    base class [Shader] that [ShaderClass] calls through [super]. *)
Class Host := {
  gettext : string → string;
  uniform_location : string → Z;
  color_from_string : string → bool * Color;
  Actor : Type;
  Shader_init : Fire → GLSLEffect;
  Shader_beginAnimation : Actor → Settings.t → bool → GLSLEffect → GLSLEffect;
}.

(** ** Metadata *)

Definition getMinShellVersion : list Z := [3; 36]%Z.

Definition getNick : string := "fire".

Definition getLabel `{Host} : string := gettext "Fire".

(** ** Presets *)

(** One entry of the [presets] array of [_createFirePresets]. *)
Record Preset := mkPreset {
  name : string;
  scale : float;
  speed : float;
  color1 : string;
  color2 : string;
  color3 : string;
  color4 : string;
  color5 : string;
}.

Definition presets `{Host} : list Preset := [
  {| name := gettext "Default Fire";
     scale := 1.0;
     speed := 0.5;
     color1 := "rgba(76, 51, 25, 0.0)";
     color2 := "rgba(180, 55, 30, 0.7)";
     color3 := "rgba(255, 76, 38, 0.9)";
     color4 := "rgba(255, 166, 25, 1)";
     color5 := "rgba(255, 255, 255, 1)" |};
  {| name := gettext "Hell Fire";
     scale := 1.5;
     speed := 0.2;
     color1 := "rgba(0,0,0,0)";
     color2 := "rgba(103,7,80,0.5)";
     color3 := "rgba(150,0,24,0.9)";
     color4 := "rgb(255,200,0)";
     color5 := "rgba(255, 255, 255, 1)" |};
  {| name := gettext "Dark and Smutty";
     scale := 1.0;
     speed := 0.5;
     color1 := "rgba(0,0,0,0)";
     color2 := "rgba(36,3,0,0.5)";
     color3 := "rgba(150,0,24,0.9)";
     color4 := "rgb(255,177,21)";
     color5 := "rgb(255,238,166)" |};
  {| name := gettext "Cold Breeze";
     scale := 1.5;
     speed := -0.1;
     color1 := "rgba(0,110,255,0)";
     color2 := "rgba(30,111,180,0.24)";
     color3 := "rgba(38,181,255,0.54)";
     color4 := "rgba(34,162,255,0.84)";
     color5 := "rgb(97,189,255)" |};
  {| name := gettext "Santa is Coming";
     scale := 0.4;
     speed := -0.5;
     color1 := "rgba(0,110,255,0)";
     color2 := "rgba(208,233,255,0.24)";
     color3 := "rgba(207,235,255,0.84)";
     color4 := "rgb(208,243,255)";
     color5 := "rgb(255,255,255)" |}
].

(** The ['activate'] handler connected to the action of [preset]. *)
Definition load_preset (preset : Preset) : Settings.M unit :=
  Settings.set_double "flame-movement-speed" (speed preset) ;;
  Settings.set_double "flame-scale" (scale preset) ;;
  Settings.set_string "fire-color-1" (color1 preset) ;;
  Settings.set_string "fire-color-2" (color2 preset) ;;
  Settings.set_string "fire-color-3" (color3 preset) ;;
  Settings.set_string "fire-color-4" (color4 preset) ;;
  Settings.set_string "fire-color-5" (color5 preset).

(** The ['clicked'] handler of the button [reset-fire-colors]. *)
Definition reset_fire_colors : Settings.M unit :=
  Settings.reset "fire-color-1" ;;
  Settings.reset "fire-color-2" ;;
  Settings.reset "fire-color-3" ;;
  Settings.reset "fire-color-4" ;;
  Settings.reset "fire-color-5".


(** ** The preset menu *)

(** A [Gio.SimpleAction] with the handler connected to ['activate']. *)
Record SimpleAction := mkAction {
  action_name : string;
  activate : Settings.M unit;
}.

(** A [Gio.Menu]: its items (label, detailed action name) in the order they
    were appended. *)
Definition Menu : Type := list (string * string).

Definition groupName : string := "presets".

(** A [Gio.SimpleActionGroup] object: its identity and its actions. *)
Record ActionGroup := mkGroup {
  group_id : nat;
  actions : gmap string SimpleAction;
}.

(** [group.add_action(action)] replaces an action of the same name. *)
Definition add_action (a : SimpleAction) (g : ActionGroup) : ActionGroup :=
  {| group_id := group_id g;
     actions := <[action_name a := a]> (actions g) |}.

(** [menu.append(label, detailed_action)]. *)
Definition menu_append (label action : string) (m : Menu) : Menu :=
  m ++ [(label, action)].

(** The body of [presets.forEach((preset, i) => ...)], on the menu and the
    group under construction. *)
Definition add_preset (preset : Preset) (i : nat) (ui : Menu * ActionGroup)
    : Menu * ActionGroup :=
  let actionName := "fire" +:+ pretty i in
  let menu := menu_append (name preset) (groupName +:+ "." +:+ actionName) ui.1 in
  let action := {| action_name := actionName;
                   activate := load_preset preset |} in
  (menu, add_action action ui.2).

(** [Array.prototype.forEach], from index [i] on. *)
Fixpoint forEach {A St : Type} (f : A → nat → St → St) (l : list A)
    (i : nat) (s : St) : St :=
  match l with
  | [] => s
  | x :: l' => forEach f l' (S i) (f x i s)
  end.

(** ** The preferences page *)

Inductive binding := Adjustment | Switch | ColorButton.

(** The two functions this file connects to signals. *)
Inductive Callback :=
| ResetFireColors
| CreateFirePresets.

(** The preferences dialog as this file sees it: what [utils.getGTKString()]
    and [utils.isGTK4()] return, the top-level window the page ends up in,
    the store behind [getSettings()], the resources added to the builder,
    the property bindings made, the signal connections (object, signal,
    handler) in the order they were made, the menu model set on each object,
    the action groups inserted at each widget under each name, and the
    number of action groups created so far. Objects of the builder go by
    their ids. *)
Record Dialog := mkDialog {
  gtk_string : string;
  is_gtk4 : bool;
  toplevel : string;
  settings : Settings.t;
  resources : list string;
  bindings : list (binding * string);
  connections : list (string * string * Callback);
  menu_models : gmap string Menu;
  action_groups : gmap (string * string) ActionGroup;
  groups_created : nat;
}.

Definition with_settings (d : Dialog) (s : Settings.t) : Dialog :=
  mkDialog (gtk_string d) (is_gtk4 d) (toplevel d) s (resources d)
    (bindings d) (connections d) (menu_models d) (action_groups d)
    (groups_created d).

Definition add_from_resource (path : string) (d : Dialog) : Dialog :=
  mkDialog (gtk_string d) (is_gtk4 d) (toplevel d) (settings d)
    (resources d ++ [path]) (bindings d) (connections d) (menu_models d)
    (action_groups d) (groups_created d).

Definition bind_key (b : binding) (key : string) (d : Dialog) : Dialog :=
  mkDialog (gtk_string d) (is_gtk4 d) (toplevel d) (settings d) (resources d)
    (bindings d ++ [(b, key)]) (connections d) (menu_models d)
    (action_groups d) (groups_created d).

Definition bindAdjustment := bind_key Adjustment.
Definition bindSwitch := bind_key Switch.
Definition bindColorButton := bind_key ColorButton.

(** [object.connect(signal, handler)]. *)
Definition connect (object signal : string) (cb : Callback) (d : Dialog)
    : Dialog :=
  mkDialog (gtk_string d) (is_gtk4 d) (toplevel d) (settings d) (resources d)
    (bindings d) (connections d ++ [(object, signal, cb)]) (menu_models d)
    (action_groups d) (groups_created d).

(** [object.set_menu_model(menu)]. *)
Definition set_menu_model (object : string) (menu : Menu) (d : Dialog)
    : Dialog :=
  mkDialog (gtk_string d) (is_gtk4 d) (toplevel d) (settings d) (resources d)
    (bindings d) (connections d) (<[object := menu]> (menu_models d))
    (action_groups d) (groups_created d).

(** [Gio.SimpleActionGroup.new()]: an empty group object of its own,
    numbered by creation. *)
Definition SimpleActionGroup_new (d : Dialog) : ActionGroup * Dialog :=
  ({| group_id := groups_created d; actions := ∅ |},
   mkDialog (gtk_string d) (is_gtk4 d) (toplevel d) (settings d) (resources d)
     (bindings d) (connections d) (menu_models d) (action_groups d)
     (S (groups_created d))).

(** [Gio.Menu.new()]. *)
Definition Menu_new : Menu := [].

(** [widget.get_root()] (GTK 4) and [widget.get_toplevel()] (GTK 3): the
    top-level window of a realized widget. *)
Definition get_root (widget : string) (d : Dialog) : string := toplevel d.
Definition get_toplevel (widget : string) (d : Dialog) : string := toplevel d.

(** [root.insert_action_group(name, group)]: the group takes the place of
    a group inserted at this widget under the same name before. *)
Definition insert_action_group (root nm : string) (g : ActionGroup)
    (d : Dialog) : Dialog :=
  mkDialog (gtk_string d) (is_gtk4 d) (toplevel d) (settings d) (resources d)
    (bindings d) (connections d) (menu_models d)
    (<[(root, nm) := g]> (action_groups d)) (groups_created d).

(** The handler [_createFirePresets] connects to ['realize'], for the
    preset list [ps]. *)
Definition fire_prefs_realize (ps : list Preset) (widget : string)
    (d : Dialog) : Dialog :=
  let menu := Menu_new in
  let '(group, d) := SimpleActionGroup_new d in
  let '(menu, group) := forEach add_preset ps 0 (menu, group) in
  let d := set_menu_model "fire-preset-button" menu d in
  let root := if is_gtk4 d then get_root widget d else get_toplevel widget d in
  insert_action_group root groupName group d.

Definition _createFirePresets (d : Dialog) : Dialog :=
  connect "fire-prefs" "realize" CreateFirePresets d.

(** [getPreferences] returns the page, the object [fire-prefs]. *)
Definition getPreferences (d : Dialog) : string * Dialog :=
  let d := add_from_resource ("/ui/" +:+ gtk_string d +:+ "/Fire.ui") d in
  let d := bindAdjustment "fire-animation-time" d in
  let d := bindAdjustment "flame-movement-speed" d in
  let d := bindAdjustment "flame-scale" d in
  let d := bindSwitch "flame-3d-noise" d in
  let d := bindColorButton "fire-color-1" d in
  let d := bindColorButton "fire-color-2" d in
  let d := bindColorButton "fire-color-3" d in
  let d := bindColorButton "fire-color-4" d in
  let d := bindColorButton "fire-color-5" d in
  let d := connect "reset-fire-colors" "clicked" ResetFireColors d in
  let d := _createFirePresets d in
  ("fire-prefs", d).

(** Running one connected handler; the emitting widget is its argument. *)
Definition run_callback `{Host} (cb : Callback) (widget : string)
    (d : Dialog) : option Dialog :=
  match cb with
  | ResetFireColors =>
      with_settings d <$> Settings.exec reset_fire_colors (settings d)
  | CreateFirePresets => Some (fire_prefs_realize presets widget d)
  end.

(** The handlers connected to [signal] of [object], in the order of
    connection. *)
Definition handlers (object signal : string) (d : Dialog) : list Callback :=
  snd <$> filter (λ c, c.1 = (object, signal)) (connections d).

Fixpoint run_callbacks `{Host} (cbs : list Callback) (widget : string)
    (d : Dialog) : option Dialog :=
  match cbs with
  | [] => Some d
  | cb :: rest => d' ← run_callback cb widget d; run_callbacks rest widget d'
  end.

(** Emitting a signal runs its handlers. *)
Definition emit `{Host} (object signal : string) (d : Dialog)
    : option Dialog :=
  run_callbacks (handlers object signal d) object d.

Definition realize `{Host} (d : Dialog) : option Dialog :=
  emit "fire-prefs" "realize" d.

Definition click_reset `{Host} (d : Dialog) : option Dialog :=
  emit "reset-fire-colors" "clicked" d.

(** [k] realize events in a row. *)
Fixpoint realize_times `{Host} (k : nat) (d : Dialog) : option Dialog :=
  match k with
  | 0 => Some d
  | S k' => d' ← realize d; realize_times k' d'
  end.

(** Activating the action [act] of the group inserted as [grp] at the
    top-level window, as choosing the menu item [grp.act] does. *)
Definition activate_action (grp act : string) (d : Dialog) : option Dialog :=
  g ← action_groups d !! (toplevel d, grp);
  a ← actions g !! act;
  with_settings d <$> Settings.exec (activate a) (settings d).

(** What is attached: the menu model of each object and, for each widget
    and name, the actions of the group inserted there. *)
Definition attached (d : Dialog)
    : gmap string Menu * gmap (string * string) (gmap string SimpleAction) :=
  (menu_models d, actions <$> action_groups d).

(** ** The shader *)

(** [this.get_uniform_location(name)]. *)
Definition get_uniform_location `{Host} (nm : string) (g : GLSLEffect)
    : Z * GLSLEffect :=
  (uniform_location nm,
   {| located := located g ++ [nm]; written := written g |}).

(** An object of [ShaderClass]: the state of its base classes and the four
    fields [_init] stores. *)
Record ShaderClass := mkShader {
  glsl : GLSLEffect;
  _uGradient : list Z;
  _u3DNoise : Z;
  _uScale : Z;
  _uMovementSpeed : Z;
}.

(** [this.set_uniform_float(uniform, n_components, values)]. *)
Definition set_uniform_float (uniform n : Z) (values : list jsval)
    (this : ShaderClass) : ShaderClass :=
  {| glsl := {| located := located (glsl this);
                written := written (glsl this)
                             ++ [(uniform, n, to_number <$> values)] |};
     _uGradient := _uGradient this;
     _u3DNoise := _u3DNoise this;
     _uScale := _uScale this;
     _uMovementSpeed := _uMovementSpeed this |}.

(** The constructor of [ShaderClass]. *)
Definition _init `{Host} (effect : Fire) : ShaderClass :=
  let g := Shader_init effect in
  let '(g1, g) := get_uniform_location "uGradient1" g in
  let '(g2, g) := get_uniform_location "uGradient2" g in
  let '(g3, g) := get_uniform_location "uGradient3" g in
  let '(g4, g) := get_uniform_location "uGradient4" g in
  let '(g5, g) := get_uniform_location "uGradient5" g in
  let '(n, g) := get_uniform_location "u3DNoise" g in
  let '(s, g) := get_uniform_location "uScale" g in
  let '(m, g) := get_uniform_location "uMovementSpeed" g in
  {| glsl := g;
     _uGradient := [g1; g2; g3; g4; g5];
     _u3DNoise := n;
     _uScale := s;
     _uMovementSpeed := m |}.

(** [for (let i = lo; i <= hi; i++) body], as [n] rounds from [i] on. *)
Fixpoint for_rounds {St : Type} (n i : nat) (body : nat → St → option St)
    (s : St) : option St :=
  match n with
  | 0 => Some s
  | S n' => s' ← body i s; for_rounds n' (S i) body s'
  end.

Definition for_loop {St : Type} (lo hi : nat) (body : nat → St → option St)
    (s : St) : option St :=
  for_rounds (S hi - lo) lo body s.

(** The body of the loop over the five gradient colours. *)
Definition load_gradient `{Host} (settings : Settings.t) (i : nat)
    (this : ShaderClass) : option ShaderClass :=
  str ← Settings.get_string settings ("fire-color-" +:+ pretty i);
  let c := (color_from_string str).2 in
  uniform ← _uGradient this !! (i - 1);
  Some (set_uniform_float uniform 4
          [JNumber (channel (red c) / 255);
           JNumber (channel (green c) / 255);
           JNumber (channel (blue c) / 255);
           JNumber (channel (alpha c) / 255)] this).

Definition beginAnimation `{Host} (actor : Actor) (settings : Settings.t)
    (forOpening : bool) (this : ShaderClass) : option ShaderClass :=
  let this :=
    {| glsl := Shader_beginAnimation actor settings forOpening (glsl this);
       _uGradient := _uGradient this;
       _u3DNoise := _u3DNoise this;
       _uScale := _uScale this;
       _uMovementSpeed := _uMovementSpeed this |} in
  this ← for_loop 1 5 (load_gradient settings) this;
  noise ← Settings.get_boolean settings "flame-3d-noise";
  let this := set_uniform_float (_u3DNoise this) 1 [JBoolean noise] this in
  scale ← Settings.get_double settings "flame-scale";
  let this := set_uniform_float (_uScale this) 1 [JNumber scale] this in
  speed ← Settings.get_double settings "flame-movement-speed";
  Some (set_uniform_float (_uMovementSpeed this) 1 [JNumber speed] this).

(** ** [createShader] *)

(** The shell process as [createShader] sees it: the effect object, the
    number of classes registered with [GObject.registerClass], and the
    shader objects constructed so far, each at its address. *)
Record Process := mkProcess {
  fire : Fire;
  classes : nat;
  heap : list ShaderClass;
}.

(** [GObject.registerClass({}, class ShaderClass extends Shader {...})]. *)
Definition registerClass (p : Process) : nat * Process :=
  (classes p,
   {| fire := fire p; classes := S (classes p); heap := heap p |}).

(** [createShader()] returns the address of the object it constructs. *)
Definition createShader `{Host} (p : Process) : nat * Process :=
  let p :=
    match _ShaderClass (fire p) with
    | None =>
        let '(cls, p) := registerClass p in
        {| fire := {| _ShaderClass := Some cls |};
           classes := classes p;
           heap := heap p |}
    | Some _ => p
    end in
  (length (heap p),
   {| fire := fire p;
      classes := classes p;
      heap := heap p ++ [_init (fire p)] |}).

(** [n] calls of [createShader] in a row, with the addresses returned. *)
Fixpoint createShader_times `{Host} (n : nat) (p : Process)
    : list nat * Process :=
  match n with
  | 0 => ([], p)
  | S n' =>
      let '(a, p1) := createShader p in
      let '(l, p2) := createShader_times n' p1 in
      (a :: l, p2)
  end.

(** ** An effect class with several objects *)





(** ** A shader object next to the store *)

(** The settings object and one shader object of the shell process: the
    store; the keys the object's methods have read through [get_string],
    [get_boolean] and [get_double], oldest first; the handlers the object's
    methods have connected to the ['changed'] signal of the settings
    object; and the shader object. A handler is called with the key that
    changed and the store, and acts on the shader object. *)
Record World := mkWorld {
  store : Settings.t;
  reads : list string;
  changed : list (string → Settings.t → ShaderClass → ShaderClass);
  shader : ShaderClass;
}.

Definition logged (key : string) (w : World) : World :=
  {| store := store w; reads := reads w ++ [key]; changed := changed w;
     shader := shader w |}.

(** [settings.get_string(key)] and the like, called by a method of the
    shader object. *)
Definition settings_get_string (key : string) (w : World)
    : option (string * World) :=
  x ← Settings.get_string (store w) key; Some (x, logged key w).

Definition settings_get_boolean (key : string) (w : World)
    : option (bool * World) :=
  b ← Settings.get_boolean (store w) key; Some (b, logged key w).

Definition settings_get_double (key : string) (w : World)
    : option (float * World) :=
  d ← Settings.get_double (store w) key; Some (d, logged key w).

(** A method call on [this]. *)
Definition on_this (f : ShaderClass → ShaderClass) (w : World) : World :=
  {| store := store w; reads := reads w; changed := changed w;
     shader := f (shader w) |}.

(** The body of the loop of [beginAnimation], and [beginAnimation], as they
    run in the process: the same statements as [load_gradient] and
    [beginAnimation] above, with the settings object they are handed. *)
Definition load_gradient_on `{Host} (i : nat) (w : World) : option World :=
  '(str, w) ← settings_get_string ("fire-color-" +:+ pretty i) w;
  let c := (color_from_string str).2 in
  uniform ← _uGradient (shader w) !! (i - 1);
  Some (on_this
          (set_uniform_float uniform 4
             [JNumber (channel (red c) / 255);
              JNumber (channel (green c) / 255);
              JNumber (channel (blue c) / 255);
              JNumber (channel (alpha c) / 255)]) w).

Definition beginAnimation_on `{Host} (actor : Actor) (forOpening : bool)
    (w : World) : option World :=
  let w :=
    on_this (λ this,
      {| glsl := Shader_beginAnimation actor (store w) forOpening (glsl this);
         _uGradient := _uGradient this;
         _u3DNoise := _u3DNoise this;
         _uScale := _uScale this;
         _uMovementSpeed := _uMovementSpeed this |}) w in
  w ← for_loop 1 5 load_gradient_on w;
  '(noise, w) ← settings_get_boolean "flame-3d-noise" w;
  let w :=
    on_this (λ this,
      set_uniform_float (_u3DNoise this) 1 [JBoolean noise] this) w in
  '(scale, w) ← settings_get_double "flame-scale" w;
  let w :=
    on_this (λ this,
      set_uniform_float (_uScale this) 1 [JNumber scale] this) w in
  '(speed, w) ← settings_get_double "flame-movement-speed" w;
  Some (on_this (λ this,
          set_uniform_float (_uMovementSpeed this) 1 [JNumber speed] this) w).

(** A write call on the store, by whoever holds the settings object. *)
Inductive store_event :=
| SetDouble (key : string) (d : float)
| SetBoolean (key : string) (b : bool)
| SetString (key : string) (x : string)
| Reset (key : string).

Definition store_command (e : store_event) : Settings.M unit :=
  match e with
  | SetDouble key d => Settings.set_double key d
  | SetBoolean key b => Settings.set_boolean key b
  | SetString key x => Settings.set_string key x
  | Reset key => Settings.reset key
  end.

Definition event_key (e : store_event) : string :=
  match e with
  | SetDouble key _ | SetBoolean key _ | SetString key _ | Reset key => key
  end.

(** The store after a write call; a call the store refuses leaves it as it
    was. *)
Definition written_store (e : store_event) (s : Settings.t) : Settings.t :=
  default s (Settings.exec (store_command e) s).

(** A write call in the process: the store changes and emits ['changed'],
    which runs the connected handlers in the order of connection. *)
Definition store_write (e : store_event) (w : World) : World :=
  match Settings.exec (store_command e) (store w) with
  | Some s =>
      {| store := s; reads := reads w; changed := changed w;
         shader :=
           foldl (λ this handler, handler (event_key e) s this) (shader w)
             (changed w) |}
  | None => w
  end.

(** What happens around one shader object: a write call on the store, or
    the base class starting an animation on the object with the settings
    object. *)
Inductive event `{Host} :=
| Write (e : store_event)
| Begin (actor : Actor) (forOpening : bool).

Definition step `{Host} (w : World) (ev : event) : option World :=
  match ev with
  | Write e => Some (store_write e w)
  | Begin actor forOpening => beginAnimation_on actor forOpening w
  end.

Fixpoint run `{Host} (events : list event) (w : World) : option World :=
  match events with
  | [] => Some w
  | ev :: rest => w' ← step w ev; run rest w'
  end.

(** How many animations were started. *)
Fixpoint begins `{Host} (events : list event) : nat :=
  match events with
  | [] => 0
  | Begin _ _ :: rest => S (begins rest)
  | Write _ :: rest => begins rest
  end.

(** A shader object as its constructor leaves it: [_init] is handed the
    effect object only, which holds no settings object, so that nothing was
    read and nothing connected. *)
Definition new_world `{Host} (effect : Fire) (s : Settings.t) : World :=
  {| store := s; reads := []; changed := []; shader := _init effect |}.

(** The values last written to the uniform at [location], if any. *)
Definition uniform_value (location : Z) (this : ShaderClass)
    : option (list float) :=
  snd <$> last (filter (λ w, w.1.1 = location) (written (glsl this))).

(** ** Keys *)

Definition color_keys : list string :=
  ["fire-color-1"; "fire-color-2"; "fire-color-3"; "fire-color-4";
   "fire-color-5"].

(** The keys a preset writes. *)
Definition preset_keys : list string :=
  ["flame-movement-speed"; "flame-scale"] ++ color_keys.

(** The keys [beginAnimation] reads, in the order it reads them. *)
Definition config_keys : list string :=
  color_keys ++ ["flame-3d-noise"; "flame-scale"; "flame-movement-speed"].

(** The schema declares the five colour keys as strings. *)
Definition color_keys_declared (s : Settings.t) : Prop :=
  Forall (λ key, Settings.declares s key Settings.TString) color_keys.

(** The schema declares the keys a preset writes, each with its type. *)
Definition preset_keys_declared (s : Settings.t) : Prop :=
  Settings.declares s "flame-movement-speed" Settings.TDouble
  ∧ Settings.declares s "flame-scale" Settings.TDouble
  ∧ color_keys_declared s.

(** A valid configuration for [beginAnimation]: every key it reads exists
    and holds a value of the type it is read at. *)
Definition config_valid (s : Settings.t) : Prop :=
  Forall (λ key, is_Some (Settings.get_string s key)) color_keys
  ∧ is_Some (Settings.get_boolean s "flame-3d-noise")
  ∧ is_Some (Settings.get_double s "flame-scale")
  ∧ is_Some (Settings.get_double s "flame-movement-speed").

(** The four numbers [beginAnimation] passes for a colour. *)
Definition gradient_values (c : Color) : list float :=
  [(channel (red c) / 255)%float; (channel (green c) / 255)%float;
   (channel (blue c) / 255)%float; (channel (alpha c) / 255)%float].

(** The uniforms [ShaderClass] declares, in the order [_init] resolves
    them. *)
Definition gradient_uniforms : list string :=
  ["uGradient1"; "uGradient2"; "uGradient3"; "uGradient4"; "uGradient5"].

Definition declared_uniforms : list string :=
  gradient_uniforms ++ ["u3DNoise"; "uScale"; "uMovementSpeed"].

(** The calls of [set_uniform_float] that went to [location], oldest
    first. *)
Definition writes_to (location : Z) (g : GLSLEffect) : list (Z * list float) :=
  (λ w, (w.1.2, w.2)) <$> filter (λ w, w.1.1 = location) (written g).

(** The writes a preset's handler makes, in order. *)
Definition preset_writes (p : Preset) : list Settings.write :=
  [Settings.WSet "flame-movement-speed" (Settings.VDouble (speed p));
   Settings.WSet "flame-scale" (Settings.VDouble (scale p));
   Settings.WSet "fire-color-1" (Settings.VString (color1 p));
   Settings.WSet "fire-color-2" (Settings.VString (color2 p));
   Settings.WSet "fire-color-3" (Settings.VString (color3 p));
   Settings.WSet "fire-color-4" (Settings.VString (color4 p));
   Settings.WSet "fire-color-5" (Settings.VString (color5 p))].

(** The action and the menu item expected for the preset [p] at index [i]. *)
Definition action_of (i : nat) (p : Preset) : SimpleAction :=
  {| action_name := "fire" +:+ pretty i; activate := load_preset p |}.

Definition item_of (i : nat) (p : Preset) : string * string :=
  (name p, groupName +:+ "." +:+ ("fire" +:+ pretty i)).

(** How many write calls the handler of [p] makes on the store [s]. *)
Definition writes_made (p : Preset) (s : Settings.t) : option nat :=
  (λ s', length (Settings.journal s') - length (Settings.journal s))
    <$> Settings.exec (load_preset p) s.

(** A number in the closed interval from 0 to 1. *)
Definition in_unit_interval (x : float) : Prop :=
  PrimFloat.leb 0 x = true ∧ PrimFloat.leb x 1 = true.

(** The writes [beginAnimation] makes itself, after the base class's. *)
Definition own_writes (this : ShaderClass) (c1 c2 c3 c4 c5 : Color)
    (noise : bool) (scale speed : float) : list (Z * Z * list float) :=
  [(default 0%Z (_uGradient this !! 0), 4%Z, gradient_values c1);
   (default 0%Z (_uGradient this !! 1), 4%Z, gradient_values c2);
   (default 0%Z (_uGradient this !! 2), 4%Z, gradient_values c3);
   (default 0%Z (_uGradient this !! 3), 4%Z, gradient_values c4);
   (default 0%Z (_uGradient this !! 4), 4%Z, gradient_values c5);
   (_u3DNoise this, 1%Z, [if noise then 1%float else 0%float]);
   (_uScale this, 1%Z, [scale]);
   (_uMovementSpeed this, 1%Z, [speed])].

(** A run of [beginAnimation] calls on one shader object, each with its
    actor, store and direction. *)
Fixpoint beginAnimation_all `{Host} (calls : list (Actor * Settings.t * bool))
    (this : ShaderClass) : option ShaderClass :=
  match calls with
  | [] => Some this
  | (actor, settings, forOpening) :: rest =>
      this' ← beginAnimation actor settings forOpening this;
      beginAnimation_all rest this'
  end.

(** ** What the user does on the page *)

(** The page is realized, the reset button is clicked, or the item of the
    preset at index [i] is chosen in the menu. *)
Inductive ui_event :=
| Realize
| ClickReset
| ChoosePreset (i : nat).

Definition run_ui_event `{Host} (e : ui_event) (d : Dialog) : option Dialog :=
  match e with
  | Realize => realize d
  | ClickReset => click_reset d
  | ChoosePreset i => activate_action groupName ("fire" +:+ pretty i) d
  end.

Fixpoint run_ui_events `{Host} (events : list ui_event) (d : Dialog)
    : option Dialog :=
  match events with
  | [] => Some d
  | e :: rest => d' ← run_ui_event e d; run_ui_events rest d'
  end.

(** The menu has an item for the event. *)
Definition in_menu `{Host} (e : ui_event) : Prop :=
  match e with
  | ChoosePreset i => i < length presets
  | _ => True
  end.

(** A page after [getPreferences] and a realize event: the two handlers of
    this file are the ones connected, the store declares the preset keys,
    and the menu and the actions of the presets are attached. *)
Definition page_ready `{Host} (d : Dialog) : Prop :=
  handlers "fire-prefs" "realize" d = [CreateFirePresets]
  ∧ handlers "reset-fire-colors" "clicked" d = [ResetFireColors]
  ∧ preset_keys_declared (settings d)
  ∧ menu_models d !! "fire-preset-button"
    = Some (forEach add_preset presets 0 (Menu_new, mkGroup 0 ∅)).1
  ∧ (actions <$> action_groups d) !! (toplevel d, groupName)
    = Some (actions (forEach add_preset presets 0 (Menu_new, mkGroup 0 ∅)).2).

(** The binding that shows a written value: an adjustment for a number, a
    colour button for a string, a switch for a boolean. *)
Definition binding_for (w : Settings.write) : option (binding * string) :=
  match w with
  | Settings.WSet key (Settings.VDouble _) => Some (Adjustment, key)
  | Settings.WSet key (Settings.VString _) => Some (ColorButton, key)
  | Settings.WSet key (Settings.VBoolean _) => Some (Switch, key)
  | Settings.WSet key (Settings.VInt _) => Some (Adjustment, key)
  | Settings.WReset key => None
  end.

(** ** A concrete environment, for the examples *)

(** A schema declaring the keys of this effect. *)
Definition example_schema : gmap string Settings.value :=
  list_to_map
    [("fire-animation-time", Settings.VInt 1500);
     ("flame-movement-speed", Settings.VDouble 0.5);
     ("flame-scale", Settings.VDouble 1.0);
     ("flame-3d-noise", Settings.VBoolean false);
     ("fire-color-1", Settings.VString "rgba(76, 51, 25, 0.0)");
     ("fire-color-2", Settings.VString "rgba(180, 55, 30, 0.7)");
     ("fire-color-3", Settings.VString "rgba(255, 76, 38, 0.9)");
     ("fire-color-4", Settings.VString "rgba(255, 166, 25, 1)");
     ("fire-color-5", Settings.VString "rgba(255, 255, 255, 1)")].

(** A store on which nothing was written yet. *)
Definition example_store : Settings.t :=
  Settings.mk example_schema ∅ [].

(** The same store after the user switched the 3D noise on and picked a
    first colour. *)
Definition example_store_noise : Settings.t :=
  Settings.mk example_schema
    (<["flame-3d-noise" := Settings.VBoolean true]>
       (<["fire-color-1" := Settings.VString "rgb(255,200,0)"]> ∅)) [].

(** A shader program whose uniforms are numbered in this order. *)
Definition example_uniforms : list string :=
  ["uForOpening"; "uProgress"; "uGradient1"; "uGradient2"; "uGradient3";
   "uGradient4"; "uGradient5"; "u3DNoise"; "uScale"; "uMovementSpeed"].

Fixpoint index_of (nm : string) (l : list string) (i : Z) : Z :=
  match l with
  | [] => (-1)%Z
  | x :: l' => if String.eqb nm x then i else index_of nm l' (i + 1)%Z
  end.

(** A few colours by their text. *)
Definition example_colors : list (string * Color) :=
  [("rgba(0,0,0,0)", mkColor x00 x00 x00 x00);
   ("rgb(255,200,0)", mkColor xff xc8 x00 xff);
   ("rgba(76, 51, 25, 0.0)", mkColor x4c x33 x19 x00);
   ("rgba(255, 166, 25, 1)", mkColor xff xa6 x19 xff);
   ("rgba(255, 255, 255, 1)", mkColor xff xff xff xff)].

Fixpoint lookup_color (str : string) (l : list (string * Color))
    : bool * Color :=
  match l with
  | [] => (false, mkColor x00 x00 x00 x00)
  | (k, c) :: l' => if String.eqb str k then (true, c) else lookup_color str l'
  end.

(** A host: no translation, the program above, a base class that resolves
    its own two uniforms when constructed and writes one of them when the
    animation begins. *)
Definition example_host : Host :=
  {| gettext := λ msg, msg;
     uniform_location := λ nm, index_of nm example_uniforms 0;
     color_from_string := λ str, lookup_color str example_colors;
     Actor := unit;
     Shader_init := λ _, mkGLSL ["uForOpening"; "uProgress"] [];
     Shader_beginAnimation := λ _ _ forOpening g,
       mkGLSL (located g)
         (written g ++ [(0%Z, 1%Z, [if forOpening then 1%float else 0%float])])
  |}.

(** A dialog to which nothing was added yet. *)
Definition example_dialog : Dialog :=
  mkDialog "gtk4" true "window" example_store [] [] [] ∅ ∅ 0.

Definition example_dialog_noise : Dialog :=
  mkDialog "gtk3" false "window" example_store_noise [] [] [] ∅ ∅ 0.


(** * Properties *)

(** ** The store *)

Section SettingsFacts.
Import Settings.

Lemma set_value_declared (s : t) key v ty :
  declares s key ty → type_of v = ty →
  set_value key v s =
    Some (tt, {| schema := schema s;
                 user := <[key := v]> (user s);
                 journal := journal s ++ [WSet key v] |}).
Proof.
  unfold declares, set_value. intros Hd Hv.
  destruct (schema s !! key) as [dflt|]; simpl in Hd; [|discriminate].
  injection Hd as Hd. rewrite Hd, Hv. by destruct ty.
Qed.

Lemma reset_declared (s : t) key ty :
  declares s key ty →
  reset key s =
    Some (tt, {| schema := schema s;
                 user := delete key (user s);
                 journal := journal s ++ [WReset key] |}).
Proof.
  unfold declares, reset. intros Hd.
  by destruct (schema s !! key).
Qed.

Lemma set_value_mk sch u j key v ty :
  type_of <$> sch !! key = Some ty → type_of v = ty →
  set_value key v (mk sch u j) =
    Some (tt, mk sch (<[key := v]> u) (j ++ [WSet key v])).
Proof. apply (set_value_declared (mk sch u j)). Qed.

Lemma reset_mk sch u j key ty :
  type_of <$> sch !! key = Some ty →
  reset key (mk sch u j) = Some (tt, mk sch (delete key u) (j ++ [WReset key])).
Proof. apply (reset_declared (mk sch u j)). Qed.

Lemma get_value_user (s : t) key v ty :
  declares s key ty → user s !! key = Some v → get_value s key = Some v.
Proof.
  unfold declares, get_value. intros Hd Hu.
  destruct (schema s !! key); [|discriminate]. by rewrite Hu.
Qed.

Lemma get_value_default (s : t) key :
  user s !! key = None → get_value s key = schema s !! key.
Proof.
  unfold get_value. intros Hu.
  destruct (schema s !! key); [|done]. by rewrite Hu.
Qed.

(** Two stores with the same schema that agree on the written value of a key
    read the same at that key. *)
Lemma get_value_agree (s s' : t) key :
  schema s' = schema s → user s' !! key = user s !! key →
  get_value s' key = get_value s key.
Proof. unfold get_value. by intros -> ->. Qed.

Lemma declares_same_schema (s s' : t) key ty :
  schema s' = schema s → declares s key ty → declares s' key ty.
Proof. unfold declares. by intros ->. Qed.

End SettingsFacts.

(** ** The two handlers that write to the store *)

Section Handlers.
Import Settings.

Lemma color_keys_declared_each (s : t) :
  color_keys_declared s →
  declares s "fire-color-1" TString ∧ declares s "fire-color-2" TString
  ∧ declares s "fire-color-3" TString ∧ declares s "fire-color-4" TString
  ∧ declares s "fire-color-5" TString.
Proof.
  unfold color_keys_declared, color_keys. intros H.
  repeat (apply Forall_cons in H as [? H]). done.
Qed.

(** The state a preset's handler leaves: seven overwrites, journalled in the
    order of the source. *)
Lemma load_preset_exec (s : t) (p : Preset) :
  preset_keys_declared s →
  exec (load_preset p) s =
    Some {| schema := schema s;
            user :=
              <["fire-color-5" := VString (color5 p)]>
              (<["fire-color-4" := VString (color4 p)]>
              (<["fire-color-3" := VString (color3 p)]>
              (<["fire-color-2" := VString (color2 p)]>
              (<["fire-color-1" := VString (color1 p)]>
              (<["flame-scale" := VDouble (scale p)]>
              (<["flame-movement-speed" := VDouble (speed p)]> (user s)))))));
            journal := journal s ++ preset_writes p |}.
Proof.
  intros (Hs & Hc & Hk). apply color_keys_declared_each in Hk.
  destruct Hk as (H1 & H2 & H3 & H4 & H5). destruct s as [sch u j].
  unfold declares in *; simpl in *.
  unfold exec, load_preset, mbind, settings_bind, bind, set_double, set_string.
  rewrite (set_value_mk sch _ _ _ (VDouble _) TDouble Hs eq_refl).
  cbv beta iota.
  rewrite (set_value_mk sch _ _ _ (VDouble _) TDouble Hc eq_refl).
  cbv beta iota.
  rewrite (set_value_mk sch _ _ _ (VString _) TString H1 eq_refl).
  cbv beta iota.
  rewrite (set_value_mk sch _ _ _ (VString _) TString H2 eq_refl).
  cbv beta iota.
  rewrite (set_value_mk sch _ _ _ (VString _) TString H3 eq_refl).
  cbv beta iota.
  rewrite (set_value_mk sch _ _ _ (VString _) TString H4 eq_refl).
  cbv beta iota.
  rewrite (set_value_mk sch _ _ _ (VString _) TString H5 eq_refl).
  simpl. by rewrite <- !app_assoc.
Qed.

(** Reading a key a value was written to. *)
Lemma get_value_mk sch u j key v ty :
  type_of <$> sch !! key = Some ty → u !! key = Some v →
  get_value (mk sch u j) key = Some v.
Proof. apply (get_value_user (mk sch u j)). Qed.

(** What the store reads after a preset's handler ran. *)
Lemma load_preset_reads (s : t) (p : Preset) :
  preset_keys_declared s →
  ∃ s', exec (load_preset p) s = Some s'
    ∧ get_double s' "flame-scale" = Some (scale p)
    ∧ get_double s' "flame-movement-speed" = Some (speed p)
    ∧ get_string s' "fire-color-1" = Some (color1 p)
    ∧ get_string s' "fire-color-2" = Some (color2 p)
    ∧ get_string s' "fire-color-3" = Some (color3 p)
    ∧ get_string s' "fire-color-4" = Some (color4 p)
    ∧ get_string s' "fire-color-5" = Some (color5 p).
Proof.
  intros Hk. eexists. split; [by apply load_preset_exec|].
  destruct Hk as (Hs & Hc & Hk). apply color_keys_declared_each in Hk.
  destruct Hk as (H1 & H2 & H3 & H4 & H5). destruct s as [sch u j].
  unfold declares in *; simpl in *. unfold get_double, get_string.
  rewrite (get_value_mk sch _ _ "flame-scale" (VDouble (scale p)) _ Hc)
    by by simplify_map_eq.
  rewrite (get_value_mk sch _ _ "flame-movement-speed" (VDouble (speed p)) _
             Hs) by by simplify_map_eq.
  rewrite (get_value_mk sch _ _ "fire-color-1" (VString (color1 p)) _ H1)
    by by simplify_map_eq.
  rewrite (get_value_mk sch _ _ "fire-color-2" (VString (color2 p)) _ H2)
    by by simplify_map_eq.
  rewrite (get_value_mk sch _ _ "fire-color-3" (VString (color3 p)) _ H3)
    by by simplify_map_eq.
  rewrite (get_value_mk sch _ _ "fire-color-4" (VString (color4 p)) _ H4)
    by by simplify_map_eq.
  rewrite (get_value_mk sch _ _ "fire-color-5" (VString (color5 p)) _ H5)
    by by simplify_map_eq.
  done.
Qed.

(** The state the reset handler leaves. *)
Lemma reset_fire_colors_exec (s : t) :
  color_keys_declared s →
  exec reset_fire_colors s =
    Some {| schema := schema s;
            user :=
              delete "fire-color-5" (delete "fire-color-4"
              (delete "fire-color-3" (delete "fire-color-2"
              (delete "fire-color-1" (user s)))));
            journal := journal s ++ (WReset <$> color_keys) |}.
Proof.
  intros Hk. apply color_keys_declared_each in Hk.
  destruct Hk as (H1 & H2 & H3 & H4 & H5). destruct s as [sch u j].
  unfold declares in *; simpl in *.
  unfold exec, reset_fire_colors, mbind, settings_bind, bind.
  rewrite (reset_mk sch _ _ _ TString H1). cbv beta iota.
  rewrite (reset_mk sch _ _ _ TString H2). cbv beta iota.
  rewrite (reset_mk sch _ _ _ TString H3). cbv beta iota.
  rewrite (reset_mk sch _ _ _ TString H4). cbv beta iota.
  rewrite (reset_mk sch _ _ _ TString H5).
  simpl. by rewrite <- !app_assoc.
Qed.

End Handlers.

(** ** Building the preset menu *)

Section PresetMenu.

Lemma fire_name_inj (i j : nat) :
  "fire" +:+ pretty i = "fire" +:+ pretty j → i = j.
Proof. intros Heq. simplify_eq/=. by apply (inj pretty). Qed.

Lemma forEach_add_preset_cons p ps i m g :
  forEach add_preset (p :: ps) i (m, g) =
  forEach add_preset ps (S i) (m ++ [item_of i p], add_action (action_of i p) g).
Proof. reflexivity. Qed.

(** The menu gets one item per preset, in the order of the list. *)
Lemma forEach_add_preset_menu ps i m g :
  (forEach add_preset ps i (m, g)).1 = m ++ imap (λ k, item_of (i + k)) ps.
Proof.
  revert i m g. induction ps as [|p ps IH]; intros i m g.
  - simpl. by rewrite app_nil_r.
  - rewrite forEach_add_preset_cons, IH. simpl.
    rewrite <- app_assoc. simpl. rewrite Nat.add_0_r. do 2 f_equal.
    apply imap_ext. intros k q _. simpl. f_equal. lia.
Qed.

(** The group object stays the one it was. *)
Lemma forEach_add_preset_id ps i m g :
  group_id (forEach add_preset ps i (m, g)).2 = group_id g.
Proof.
  revert i m g. induction ps as [|p ps IH]; intros i m g; [done|].
  by rewrite forEach_add_preset_cons, IH.
Qed.

(** A name that is not the name of a later action is left alone. *)
Lemma forEach_add_preset_miss ps i m g nm :
  (∀ k, k < length ps → nm ≠ "fire" +:+ pretty (i + k)) →
  actions (forEach add_preset ps i (m, g)).2 !! nm = actions g !! nm.
Proof.
  revert i m g. induction ps as [|p ps IH]; intros i m g Hnm; [done|].
  rewrite forEach_add_preset_cons, IH.
  - simpl. apply lookup_insert_ne. intros Heq.
    apply (Hnm 0); [simpl; lia|]. by rewrite Nat.add_0_r.
  - intros k Hk. replace (S i + k) with (i + S k) by lia.
    apply Hnm. simpl. lia.
Qed.

(** The action named after index [i + k] is the one of the preset at
    position [k]. *)
Lemma forEach_add_preset_hit ps i m g k p :
  ps !! k = Some p →
  actions (forEach add_preset ps i (m, g)).2 !! ("fire" +:+ pretty (i + k))
  = Some (action_of (i + k) p).
Proof.
  revert i m g k. induction ps as [|q ps IH]; intros i m g k Hk; [done|].
  rewrite forEach_add_preset_cons. destruct k as [|k]; simpl in Hk.
  - injection Hk as ->. rewrite Nat.add_0_r, forEach_add_preset_miss.
    + simpl. apply lookup_insert_eq.
    + intros k _ Heq. apply fire_name_inj in Heq. lia.
  - replace (i + S k) with (S i + k) by lia. by apply IH.
Qed.

(** Starting from a group none of whose names is a later action's, every
    preset adds an action. *)
Lemma forEach_add_preset_size ps i m g :
  (∀ nm k, is_Some (actions g !! nm) → nm ≠ "fire" +:+ pretty (i + k)) →
  size (actions (forEach add_preset ps i (m, g)).2)
  = size (actions g) + length ps.
Proof.
  revert i m g. induction ps as [|p ps IH]; intros i m g Hg.
  - simpl. lia.
  - rewrite forEach_add_preset_cons, IH.
    + simpl. rewrite map_size_insert_None; [lia|].
      apply eq_None_not_Some. intros Hs.
      apply (Hg _ 0 Hs). by rewrite Nat.add_0_r.
    + intros nm k. simpl. rewrite lookup_insert. case_decide as Hn.
      * intros _. subst nm. intros Heq. apply fire_name_inj in Heq. lia.
      * intros Hs Heq. apply (Hg nm (S k) Hs). rewrite Heq.
        do 2 f_equal. lia.
Qed.

(** The group built does not depend on which object it is. *)
Lemma forEach_add_preset_any_id ps i m a n n' :
  forEach add_preset ps i (m, mkGroup n a) =
  ((forEach add_preset ps i (m, mkGroup n' a)).1,
   mkGroup n (actions (forEach add_preset ps i (m, mkGroup n' a)).2)).
Proof.
  revert i m a. induction ps as [|p ps IH]; intros i m a; [done|].
  rewrite !forEach_add_preset_cons. unfold add_action. simpl. apply IH.
Qed.

End PresetMenu.

Lemma forEach_add_preset_dom ps i m g nm :
  is_Some (actions (forEach add_preset ps i (m, g)).2 !! nm) →
  is_Some (actions g !! nm)
  ∨ ∃ k, k < length ps ∧ nm = "fire" +:+ pretty (i + k).
Proof.
  revert i m g. induction ps as [|p ps IH]; intros i m g; [by left|].
  rewrite forEach_add_preset_cons. intros Hs.
  apply IH in Hs as [Hs|(k & Hk & ->)].
  - simpl in Hs. rewrite lookup_insert in Hs. case_decide as Hn.
    + right. exists 0. split; [simpl; lia|]. by rewrite Nat.add_0_r.
    + by left.
  - right. exists (S k). split; [simpl; lia|]. do 2 f_equal. lia.
Qed.

(** C4: for a preset list of any length, the loop of [_createFirePresets]
    leaves a group of exactly as many actions as there are presets, whose
    names are exactly [fire0], [fire1], ... up to the length of the list; the
    action named after index [i] carries the handler that loads the preset
    at index [i]; and the menu holds one item per preset, in the order of
    the list, each routed to [presets.fire<i>]. *)
Theorem preset_menu_one_action_per_preset (ps : list Preset) (n : nat) :
  let built :=
    forEach add_preset ps 0 (Menu_new, {| group_id := n; actions := ∅ |}) in
  size (actions built.2) = length ps
  ∧ (∀ nm, is_Some (actions built.2 !! nm)
           ↔ ∃ i, i < length ps ∧ nm = "fire" +:+ pretty i)
  ∧ (∀ i p, ps !! i = Some p →
            actions built.2 !! ("fire" +:+ pretty i)
            = Some {| action_name := "fire" +:+ pretty i;
                      activate := load_preset p |})
  ∧ built.1 = imap (λ i p, (name p, "presets.fire" +:+ pretty i)) ps
  ∧ length built.1 = length ps.
Proof.
  intros built. subst built. repeat split.
  - rewrite forEach_add_preset_size; [simpl; by rewrite map_size_empty|].
    intros nm k [a Ha]. simpl in Ha. by rewrite lookup_empty in Ha.
  - intros Hs. apply forEach_add_preset_dom in Hs as [[a Ha]|Hk].
    + simpl in Ha. by rewrite lookup_empty in Ha.
    + done.
  - intros (i & Hi & ->). apply lookup_lt_is_Some_2 in Hi as [p Hp].
    rewrite (forEach_add_preset_hit ps 0 _ _ i p Hp). by eexists.
  - intros i p Hp. apply (forEach_add_preset_hit ps 0 _ _ i p Hp).
  - rewrite forEach_add_preset_menu. reflexivity.
  - rewrite forEach_add_preset_menu. simpl. by rewrite length_imap.
Qed.

(** ** The preferences page *)

Section Page.
Context `{Host}.
Import Settings.

(** [getPreferences] adds a resource and bindings and connects two
    handlers; it touches neither the store nor what is attached. *)
Lemma getPreferences_connects (d : Dialog) :
  (getPreferences d).1 = "fire-prefs"
  ∧ settings (getPreferences d).2 = settings d
  ∧ toplevel (getPreferences d).2 = toplevel d
  ∧ is_gtk4 (getPreferences d).2 = is_gtk4 d
  ∧ connections (getPreferences d).2
    = connections d ++ [("reset-fire-colors", "clicked", ResetFireColors);
                        ("fire-prefs", "realize", CreateFirePresets)]
  ∧ menu_models (getPreferences d).2 = menu_models d
  ∧ action_groups (getPreferences d).2 = action_groups d
  ∧ groups_created (getPreferences d).2 = groups_created d.
Proof.
  unfold getPreferences, _createFirePresets, connect. simpl.
  by rewrite <- app_assoc.
Qed.

Lemma getPreferences_handlers (d : Dialog) :
  handlers "fire-prefs" "realize" (getPreferences d).2
  = handlers "fire-prefs" "realize" d ++ [CreateFirePresets]
  ∧ handlers "reset-fire-colors" "clicked" (getPreferences d).2
    = handlers "reset-fire-colors" "clicked" d ++ [ResetFireColors].
Proof.
  unfold handlers.
  destruct (getPreferences_connects d) as (_ & _ & _ & _ & -> & _).
  by rewrite !filter_app, !fmap_app.
Qed.

(** One run of the realize handler. *)
Lemma fire_prefs_realize_fields (ps : list Preset) (widget : string)
    (d : Dialog) :
  let built := forEach add_preset ps 0 (Menu_new, mkGroup 0 ∅) in
  settings (fire_prefs_realize ps widget d) = settings d
  ∧ toplevel (fire_prefs_realize ps widget d) = toplevel d
  ∧ connections (fire_prefs_realize ps widget d) = connections d
  ∧ menu_models (fire_prefs_realize ps widget d)
    = <["fire-preset-button" := built.1]> (menu_models d)
  ∧ action_groups (fire_prefs_realize ps widget d)
    = <[(toplevel d, groupName) :=
          mkGroup (groups_created d) (actions built.2)]> (action_groups d)
  ∧ groups_created (fire_prefs_realize ps widget d) = S (groups_created d).
Proof.
  intros built. subst built. unfold fire_prefs_realize, SimpleActionGroup_new.
  rewrite (forEach_add_preset_any_id ps 0 Menu_new ∅ (groups_created d) 0).
  cbn [set_menu_model is_gtk4 get_root get_toplevel toplevel].
  by destruct (is_gtk4 d).
Qed.

(** On a page to which only [getPreferences] connected a realize handler,
    a realize event runs that handler, once. *)
Lemma realize_getPreferences (d : Dialog) :
  handlers "fire-prefs" "realize" d = [CreateFirePresets] →
  realize d = Some (fire_prefs_realize presets "fire-prefs" d).
Proof. unfold realize, emit. by intros ->. Qed.

End Page.

(** ** Presets and reset *)

(** C2: on a page built by [getPreferences] and realized, whatever the store
    held before, activating the action [fire<i>] of the group [presets] and
    then reading the store gives the literal values of the preset at index
    [i] for [flame-scale], [flame-movement-speed] and the five colours. The
    preset at index 1 is "Hell Fire": after it [flame-scale] reads 1.5 and
    [flame-movement-speed] reads 0.2. *)
Theorem preset_readback `{Host} (d : Dialog) (i : nat) (p : Preset) :
  preset_keys_declared (settings d) →
  handlers "fire-prefs" "realize" d = [] →
  presets !! i = Some p →
  ∃ d1 d2,
    realize (getPreferences d).2 = Some d1
    ∧ activate_action "presets" ("fire" +:+ pretty i) d1 = Some d2
    ∧ Settings.get_double (settings d2) "flame-scale" = Some (scale p)
    ∧ Settings.get_double (settings d2) "flame-movement-speed"
      = Some (speed p)
    ∧ Settings.get_string (settings d2) "fire-color-1" = Some (color1 p)
    ∧ Settings.get_string (settings d2) "fire-color-2" = Some (color2 p)
    ∧ Settings.get_string (settings d2) "fire-color-3" = Some (color3 p)
    ∧ Settings.get_string (settings d2) "fire-color-4" = Some (color4 p)
    ∧ Settings.get_string (settings d2) "fire-color-5" = Some (color5 p)
    ∧ (i = 1 →
       name p = gettext "Hell Fire"
       ∧ Settings.get_double (settings d2) "flame-scale" = Some 1.5%float
       ∧ Settings.get_double (settings d2) "flame-movement-speed"
         = Some 0.2%float).
Proof.
  intros Hk Hr Hp.
  destruct (getPreferences_handlers d) as [Hr' _]. rewrite Hr in Hr'.
  destruct (getPreferences_connects d) as (_ & Hs0 & _).
  destruct (load_preset_reads (settings d) p Hk)
    as (s' & Hex & Hr1 & Hr2 & Hr3 & Hr4 & Hr5 & Hr6 & Hr7).
  revert Hr' Hs0. generalize (getPreferences d).2. intros d0 Hr' Hs0.
  exists (fire_prefs_realize presets "fire-prefs" d0).
  exists (with_settings (fire_prefs_realize presets "fire-prefs" d0) s').
  split; [by apply realize_getPreferences|].
  destruct (fire_prefs_realize_fields presets "fire-prefs" d0)
    as (Hs & Ht & _ & _ & Hg & _).
  pose proof (forEach_add_preset_hit presets 0 Menu_new (mkGroup 0 ∅) i p Hp)
    as Hhit.
  change (0 + i) with i in Hhit.
  split.
  { unfold activate_action. rewrite Hg, Hs, Ht. unfold groupName.
    rewrite lookup_insert_eq. cbn [mbind option_bind actions].
    rewrite Hhit. cbn [mbind option_bind activate action_of].
    by rewrite Hs0, Hex. }
  cbn [with_settings settings].
  rewrite Hr1, Hr2, Hr3, Hr4, Hr5, Hr6, Hr7.
  do 7 (split; [reflexivity|]).
  intros ->. injection Hp as <-. done.
Qed.

(** Checks that a concrete store declares the keys asked for. *)
Ltac keys_declared :=
  unfold preset_keys_declared, color_keys_declared;
  repeat split; repeat constructor.

(** The scenario of the spec: from [flame-scale] at 1.0, "Hell Fire". *)
Lemma preset_readback_witness :
  preset_keys_declared (settings example_dialog)
  ∧ Settings.get_double (settings example_dialog) "flame-scale"
    = Some 1.0%float
  ∧ ∃ d1 d2,
      @realize example_host (getPreferences example_dialog).2 = Some d1
      ∧ activate_action "presets" "fire1" d1 = Some d2
      ∧ Settings.get_double (settings d2) "flame-scale" = Some 1.5%float
      ∧ Settings.get_double (settings d2) "flame-movement-speed"
        = Some 0.2%float
      ∧ Settings.get_string (settings d2) "fire-color-4"
        = Some "rgb(255,200,0)".
Proof.
  assert (Hk : preset_keys_declared (settings example_dialog)).
  { keys_declared. }
  split; [exact Hk|]. split; [vm_compute; reflexivity|].
  destruct (@preset_readback example_host example_dialog 1 _ Hk eq_refl
              eq_refl)
    as (d1 & d2 & H1 & H2 & H3 & H4 & _ & _ & _ & H8 & _).
  exists d1, d2. split; [exact H1|]. split; [exact H2|].
  split; [exact H3|]. split; [exact H4|exact H8].
Defined.

(** C3, as the spec words it, fails: on the example store the handler of
    the preset "Hell Fire" makes seven write calls, not six. *)
Lemma preset_six_writes_counterexample :
  (p ← @presets example_host !! 1; writes_made p example_store) = Some 7
  ∧ (p ← @presets example_host !! 1; writes_made p example_store) ≠ Some 6.
Proof. split; [vm_compute; reflexivity | vm_compute; discriminate]. Qed.

(** C3, amended: whatever the store held before, the handler of a preset
    makes exactly seven write calls, in the order of the source: the
    movement speed, the scale and the five colours of that preset. Each is
    a plain overwrite of the value written under its key; the schema is not
    touched, and the handler does not fail on a store that declares the
    seven keys. *)
Theorem preset_activation_writes `{Host} (s : Settings.t) (i : nat)
    (p : Preset) :
  preset_keys_declared s →
  presets !! i = Some p →
  ∃ s',
    Settings.exec (load_preset p) s = Some s'
    ∧ Settings.journal s'
      = Settings.journal s
        ++ [Settings.WSet "flame-movement-speed" (Settings.VDouble (speed p));
            Settings.WSet "flame-scale" (Settings.VDouble (scale p));
            Settings.WSet "fire-color-1" (Settings.VString (color1 p));
            Settings.WSet "fire-color-2" (Settings.VString (color2 p));
            Settings.WSet "fire-color-3" (Settings.VString (color3 p));
            Settings.WSet "fire-color-4" (Settings.VString (color4 p));
            Settings.WSet "fire-color-5" (Settings.VString (color5 p))]
    ∧ writes_made p s = Some 7
    ∧ Settings.schema s' = Settings.schema s
    ∧ Settings.user s'
      = <["fire-color-5" := Settings.VString (color5 p)]>
        (<["fire-color-4" := Settings.VString (color4 p)]>
        (<["fire-color-3" := Settings.VString (color3 p)]>
        (<["fire-color-2" := Settings.VString (color2 p)]>
        (<["fire-color-1" := Settings.VString (color1 p)]>
        (<["flame-scale" := Settings.VDouble (scale p)]>
        (<["flame-movement-speed" := Settings.VDouble (speed p)]>
           (Settings.user s))))))).
Proof.
  intros Hk _. eexists. split; [by apply load_preset_exec|].
  unfold writes_made. rewrite (load_preset_exec s p Hk). simpl.
  repeat split. f_equal. rewrite length_app. simpl. lia.
Qed.

(** The handler of "Hell Fire" on the example store. *)
Lemma preset_activation_writes_witness :
  preset_keys_declared example_store
  ∧ ∃ p s',
      @presets example_host !! 1 = Some p
      ∧ Settings.exec (load_preset p) example_store = Some s'
      ∧ length (Settings.journal s') = 7.
Proof.
  assert (Hk : preset_keys_declared example_store).
  { keys_declared. }
  split; [exact Hk|].
  destruct (@preset_activation_writes example_host example_store 1 _ Hk
              eq_refl) as (s' & H1 & H2 & _).
  eexists _, s'. split; [reflexivity|]. split; [exact H1|].
  rewrite H2. reflexivity.
Defined.

(** C10: whatever the store held before, the handler of a preset leaves
    every key outside the seven it writes as it was: the value written
    under such a key, and what reading it gives, are the same before and
    after. This holds in particular for [flame-3d-noise] and
    [fire-animation-time]. *)
Theorem preset_frame `{Host} (s : Settings.t) (i : nat) (p : Preset) :
  preset_keys_declared s →
  presets !! i = Some p →
  ∃ s',
    Settings.exec (load_preset p) s = Some s'
    ∧ (∀ key,
         key ∉ ["flame-movement-speed"; "flame-scale"; "fire-color-1";
                "fire-color-2"; "fire-color-3"; "fire-color-4";
                "fire-color-5"] →
         Settings.user s' !! key = Settings.user s !! key
         ∧ Settings.get_value s' key = Settings.get_value s key)
    ∧ Settings.schema s' = Settings.schema s
    ∧ Settings.get_value s' "flame-3d-noise"
      = Settings.get_value s "flame-3d-noise"
    ∧ Settings.get_value s' "fire-animation-time"
      = Settings.get_value s "fire-animation-time".
Proof.
  intros Hk _. eexists. split; [by apply load_preset_exec|].
  assert (Hframe : ∀ key, key ∉ preset_keys →
    (<["fire-color-5" := Settings.VString (color5 p)]>
    (<["fire-color-4" := Settings.VString (color4 p)]>
    (<["fire-color-3" := Settings.VString (color3 p)]>
    (<["fire-color-2" := Settings.VString (color2 p)]>
    (<["fire-color-1" := Settings.VString (color1 p)]>
    (<["flame-scale" := Settings.VDouble (scale p)]>
    (<["flame-movement-speed" := Settings.VDouble (speed p)]>
       (Settings.user s)))))))) !! key = Settings.user s !! key).
  { intros key Hn. unfold preset_keys, color_keys in Hn. simpl in Hn.
    rewrite !not_elem_of_cons in Hn.
    destruct Hn as (? & ? & ? & ? & ? & ? & ? & _).
    by rewrite !lookup_insert_ne. }
  split; [|split; [done|split]].
  - intros key Hn. split; [by apply Hframe|].
    apply get_value_agree; [done|by apply Hframe].
  - apply get_value_agree; [done|]. apply Hframe.
    unfold preset_keys, color_keys. simpl. rewrite !not_elem_of_cons.
    repeat split; try discriminate. apply not_elem_of_nil.
  - apply get_value_agree; [done|]. apply Hframe.
    unfold preset_keys, color_keys. simpl. rewrite !not_elem_of_cons.
    repeat split; try discriminate. apply not_elem_of_nil.
Qed.

(** "Cold Breeze" on a store where the 3D noise was switched on. *)
Lemma preset_frame_witness :
  preset_keys_declared example_store_noise
  ∧ Settings.get_value example_store_noise "flame-3d-noise"
    = Some (Settings.VBoolean true)
  ∧ ∃ p s',
      @presets example_host !! 3 = Some p
      ∧ Settings.exec (load_preset p) example_store_noise = Some s'
      ∧ Settings.get_value s' "flame-3d-noise"
        = Some (Settings.VBoolean true)
      ∧ Settings.get_value s' "fire-animation-time"
        = Some (Settings.VInt 1500).
Proof.
  assert (Hk : preset_keys_declared example_store_noise).
  { keys_declared. }
  split; [exact Hk|]. split; [vm_compute; reflexivity|].
  destruct (@preset_frame example_host example_store_noise 3 _ Hk eq_refl)
    as (s' & H1 & _ & _ & H3 & H4).
  eexists _, s'. split; [reflexivity|]. split; [exact H1|].
  rewrite H3, H4. split; vm_compute; reflexivity.
Defined.

Lemma declares_string_default (s : Settings.t) key :
  Settings.declares s key Settings.TString →
  ∃ dflt, Settings.schema s !! key = Some (Settings.VString dflt).
Proof.
  unfold Settings.declares. intros Hd.
  destruct (Settings.schema s !! key) as [[| |dflt|]|]; try discriminate.
  by exists dflt.
Qed.

(** C9: on a page built by [getPreferences], whatever the store held
    before, a click on [reset-fire-colors] makes five reset calls, for
    [fire-color-1] to [fire-color-5] in this order, and afterwards each of
    the five keys has no written value left and reads as the default the
    schema declares for it. *)
Theorem reset_restores_defaults `{Host} (d : Dialog) :
  color_keys_declared (settings d) →
  handlers "reset-fire-colors" "clicked" d = [] →
  ∃ d',
    click_reset (getPreferences d).2 = Some d'
    ∧ Settings.journal (settings d')
      = Settings.journal (settings d)
        ++ [Settings.WReset "fire-color-1"; Settings.WReset "fire-color-2";
            Settings.WReset "fire-color-3"; Settings.WReset "fire-color-4";
            Settings.WReset "fire-color-5"]
    ∧ Forall (λ key,
        ∃ dflt,
          Settings.default_of (settings d) key = Some (Settings.VString dflt)
          ∧ Settings.get_string (settings d') key = Some dflt
          ∧ Settings.user (settings d') !! key = None)
        ["fire-color-1"; "fire-color-2"; "fire-color-3"; "fire-color-4";
         "fire-color-5"].
Proof.
  intros Hk Hr.
  destruct (getPreferences_handlers d) as [_ Hr']. rewrite Hr in Hr'.
  destruct (getPreferences_connects d) as (_ & Hs0 & _).
  revert Hr' Hs0. generalize (getPreferences d).2. intros d0 Hr' Hs0.
  destruct (settings d) as [sch u j] eqn:Hsd.
  exists (with_settings d0
            (Settings.mk sch
               (delete "fire-color-5" (delete "fire-color-4"
                 (delete "fire-color-3" (delete "fire-color-2"
                 (delete "fire-color-1" u)))))
               (j ++ (Settings.WReset <$> color_keys)))).
  split; [|split].
  - unfold click_reset, emit. rewrite Hr'.
    cbn [app run_callbacks run_callback mbind option_bind].
    rewrite Hs0.
    by rewrite (reset_fire_colors_exec (Settings.mk sch u j) Hk).
  - reflexivity.
  - cbn [with_settings settings Settings.user].
    apply color_keys_declared_each in Hk.
    destruct Hk as (H1 & H2 & H3 & H4 & H5).
    apply declares_string_default in H1 as [c1 H1], H2 as [c2 H2],
      H3 as [c3 H3], H4 as [c4 H4], H5 as [c5 H5].
    unfold Settings.default_of, Settings.get_string, Settings.get_value.
    cbn [Settings.schema Settings.user] in *.
    repeat constructor.
    + exists c1. rewrite H1. by simplify_map_eq.
    + exists c2. rewrite H2. by simplify_map_eq.
    + exists c3. rewrite H3. by simplify_map_eq.
    + exists c4. rewrite H4. by simplify_map_eq.
    + exists c5. rewrite H5. by simplify_map_eq.
Qed.

(** A reset after the first colour was changed. *)
Lemma reset_restores_defaults_witness :
  color_keys_declared (settings example_dialog_noise)
  ∧ handlers "reset-fire-colors" "clicked" example_dialog_noise = []
  ∧ Settings.get_string (settings example_dialog_noise) "fire-color-1"
    = Some "rgb(255,200,0)"
  ∧ ∃ d',
      @click_reset example_host (getPreferences example_dialog_noise).2
      = Some d'
      ∧ Settings.get_string (settings d') "fire-color-1"
        = Some "rgba(76, 51, 25, 0.0)".
Proof.
  assert (Hk : color_keys_declared (settings example_dialog_noise)).
  { keys_declared. }
  split; [exact Hk|]. split; [reflexivity|].
  split; [vm_compute; reflexivity|].
  destruct (@reset_restores_defaults example_host example_dialog_noise Hk
              eq_refl) as (d' & H1 & _ & H3).
  exists d'. split; [exact H1|].
  apply Forall_cons in H3 as [(dflt & Hd & Hg & _) _].
  vm_compute in Hd. injection Hd as <-. exact Hg.
Defined.

(** ** Realize events *)

(** After one realize event or more on a page whose only realize handler
    is the one of [_createFirePresets]: the menu and the group of the last
    run are the ones attached, and the group is a new object each time. *)
Lemma realize_times_S `{Host} (d : Dialog) (k : nat) :
  handlers "fire-prefs" "realize" d = [CreateFirePresets] →
  let built := forEach add_preset presets 0 (Menu_new, mkGroup 0 ∅) in
  ∃ dk,
    realize_times (S k) d = Some dk
    ∧ connections dk = connections d
    ∧ toplevel dk = toplevel d
    ∧ settings dk = settings d
    ∧ menu_models dk = <["fire-preset-button" := built.1]> (menu_models d)
    ∧ action_groups dk
      = <[(toplevel d, groupName) :=
            mkGroup (groups_created d + k) (actions built.2)]>
          (action_groups d)
    ∧ groups_created dk = groups_created d + S k.
Proof.
  intros Hr built. revert d Hr. induction k as [|k IH]; intros d Hr.
  - exists (fire_prefs_realize presets "fire-prefs" d).
    destruct (fire_prefs_realize_fields presets "fire-prefs" d)
      as (Hs & Ht & Hp & Hm & Hg & Hc).
    cbn [realize_times]. rewrite (realize_getPreferences d Hr).
    cbn [mbind option_bind].
    rewrite Hs, Ht, Hp, Hm, Hg, Hc, Nat.add_0_r, Nat.add_1_r.
    done.
  - destruct (fire_prefs_realize_fields presets "fire-prefs" d)
      as (Hs & Ht & Hp & Hm & Hg & Hc).
    destruct (IH (fire_prefs_realize presets "fire-prefs" d)) as
      (dk & Hk & Hpk & Htk & Hsk & Hmk & Hgk & Hck).
    { unfold handlers. rewrite Hp. exact Hr. }
    exists dk. change (realize_times (S (S k)) d)
      with (realize d ≫= realize_times (S k)).
    rewrite (realize_getPreferences d Hr). cbn [mbind option_bind].
    rewrite Hk, Hpk, Htk, Hsk, Hmk, Hgk, Hck, Hs, Ht, Hp, Hm, Hg, Hc,
      !insert_insert_eq.
    do 5 (split; [done|]). split; [|lia].
    do 2 f_equal. lia.
Qed.

Lemma realize_times_snoc `{Host} (k : nat) (d : Dialog) :
  realize_times (S k) d = realize_times k d ≫= realize.
Proof.
  revert d. induction k as [|k IH]; intros d.
  - cbn [realize_times mbind option_bind]. by destruct (realize d).
  - change (realize_times (S (S k)) d)
      with (realize d ≫= realize_times (S k)).
    change (realize_times (S k) d) with (realize d ≫= realize_times k).
    destruct (realize d) as [d'|]; [|done].
    cbn [mbind option_bind]. apply IH.
Qed.

(** C6, as the spec words it, fails: the attach is not one-time. On the
    example page the second realize event runs the handler again: a second
    group is created and inserted under [presets] at the window, in the
    place of the first, so that the group attached after two events is not
    the group attached after one. *)
Lemma realize_attach_one_time_counterexample :
  (groups_created
     <$> @realize_times example_host 1 (getPreferences example_dialog).2)
  = Some 1
  ∧ (groups_created
       <$> @realize_times example_host 2 (getPreferences example_dialog).2)
    = Some 2
  ∧ (d ← @realize_times example_host 1 (getPreferences example_dialog).2;
     group_id <$> action_groups d !! ("window", "presets")) = Some 0
  ∧ (d ← @realize_times example_host 2 (getPreferences example_dialog).2;
     group_id <$> action_groups d !! ("window", "presets")) = Some 1.
Proof. repeat split; vm_compute; reflexivity. Qed.

(** C6, amended: [getPreferences] only connects the handler: by itself it
    attaches nothing. On a page with no other realize handler, every
    realize event runs the handler, the first one and each later one alike:
    it builds the menu of the presets and a new action group, sets the menu
    on [fire-preset-button] and inserts the group at the top-level window
    under the name [presets], where it takes the place of the group of the
    event before. So after any number of events the attachments have the
    same content as after the first (that one menu, and one group under
    [presets] with the same actions), while the group attached is the one
    created by the last event, not the one of the first, and as many groups
    were created as there were events. *)
Theorem realize_attach_replaces_same_content `{Host} (d : Dialog) (k : nat) :
  handlers "fire-prefs" "realize" d = [] →
  attached (getPreferences d).2 = attached d
  ∧ ∃ d1 dk,
      realize (getPreferences d).2 = Some d1
      ∧ realize_times (S k) (getPreferences d).2 = Some dk
      ∧ attached dk = attached d1
      ∧ attached d1
        = (<["fire-preset-button" :=
               (forEach add_preset presets 0 (Menu_new, mkGroup 0 ∅)).1]>
             (attached d).1,
           <[(toplevel d, "presets") :=
               actions (forEach add_preset presets 0
                          (Menu_new, mkGroup 0 ∅)).2]> (attached d).2)
      ∧ group_id <$> action_groups dk !! (toplevel d, "presets")
        = Some (groups_created d + k)
      ∧ groups_created dk = groups_created d + S k
      ∧ (∃ d', realize_times k (getPreferences d).2 = Some d'
               ∧ dk = fire_prefs_realize presets "fire-prefs" d')
      ∧ action_groups dk
        = <[(toplevel d, "presets") :=
              mkGroup (groups_created d + k)
                (actions (forEach add_preset presets 0
                            (Menu_new, mkGroup 0 ∅)).2)]> (action_groups d)
      ∧ (k ≠ 0 → action_groups dk ≠ action_groups d1).
Proof.
  intros Hr.
  destruct (getPreferences_handlers d) as [Hr' _]. rewrite Hr in Hr'.
  destruct (getPreferences_connects d) as (_ & _ & Ht0 & _ & _ & Hm0 & Hg0 & Hc0).
  revert Hr' Ht0 Hm0 Hg0 Hc0. generalize (getPreferences d).2.
  intros d0 Hr' Ht0 Hm0 Hg0 Hc0.
  split; [unfold attached; by rewrite Hm0, Hg0|].
  destruct (realize_times_S d0 k Hr')
    as (dk & Hk & _ & _ & _ & Hmk & Hgk & Hck).
  destruct (fire_prefs_realize_fields presets "fire-prefs" d0)
    as (_ & _ & _ & Hm1 & Hg1 & _).
  exists (fire_prefs_realize presets "fire-prefs" d0), dk.
  split; [exact (realize_getPreferences _ Hr')|]. split; [exact Hk|].
  assert (Hlast : ∃ d', realize_times k d0 = Some d'
                        ∧ dk = fire_prefs_realize presets "fire-prefs" d').
  { pose proof (realize_times_snoc k d0) as Hsn. rewrite Hk in Hsn.
    destruct k as [|j].
    - exists d0. split; [done|]. cbn [realize_times mbind option_bind] in Hsn.
      rewrite (realize_getPreferences _ Hr') in Hsn. by injection Hsn.
    - destruct (realize_times_S d0 j Hr') as (dj & Hj & Hcj & _).
      rewrite Hj in Hsn. cbn [mbind option_bind] in Hsn.
      rewrite realize_getPreferences in Hsn
        by (unfold handlers; rewrite Hcj; exact Hr').
      exists dj. split; [done|]. by injection Hsn. }
  unfold attached. cbn [fst snd].
  rewrite Hm1, Hmk, Hg1, Hgk, !fmap_insert, Hm0, Hg0, Ht0, Hck, Hc0.
  unfold groupName. cbn [actions].
  do 2 (split; [reflexivity|]). split; [by rewrite lookup_insert_eq|].
  split; [reflexivity|]. split; [exact Hlast|]. split; [reflexivity|].
  intros Hk0 Heq.
  apply (f_equal (λ m, group_id <$> m !! (toplevel d, "presets"))) in Heq.
  rewrite !lookup_insert_eq in Heq.
  cbn [fmap option_fmap option_map group_id] in Heq. injection Heq. lia.
Qed.

(** Three realize events on the example dialog. *)
Lemma realize_attach_replaces_same_content_witness :
  handlers "fire-prefs" "realize" example_dialog = []
  ∧ attached (getPreferences example_dialog).2 = (∅, ∅)
  ∧ ∃ d1 d3,
      @realize example_host (getPreferences example_dialog).2 = Some d1
      ∧ @realize_times example_host 3 (getPreferences example_dialog).2
        = Some d3
      ∧ attached d3 = attached d1
      ∧ group_id <$> action_groups d3 !! ("window", "presets") = Some 2
      ∧ action_groups d3 ≠ action_groups d1.
Proof.
  split; [reflexivity|].
  destruct (@realize_attach_replaces_same_content example_host example_dialog
              2 eq_refl)
    as (H0 & d1 & d3 & H1 & H3 & Ha & _ & Hi & _ & _ & _ & Hne).
  split; [rewrite H0; reflexivity|].
  exists d1, d3. split; [exact H1|]. split; [exact H3|].
  split; [exact Ha|]. split; [exact Hi|]. by apply Hne.
Defined.

(** ** The shader *)

(** A byte over 255 lies between 0 and 1. *)
Lemma channel_unit_interval (b : byte) :
  in_unit_interval (channel b / 255).
Proof. unfold in_unit_interval. destruct b; vm_compute; split; reflexivity. Qed.

Lemma gradient_values_unit_interval (c : Color) :
  Forall in_unit_interval (gradient_values c).
Proof. repeat constructor; apply channel_unit_interval. Qed.

Lemma filter_none {A} (P : A → Prop) `{∀ x, Decision (P x)} (l : list A) :
  Forall (λ y, ¬ P y) l → filter P l = [].
Proof. induction 1 as [|y l Hy _ IH]; [done|]. by rewrite filter_cons_False. Qed.

(** Among writes to pairwise distinct locations, exactly one goes to the
    location of any given one of them. *)
Lemma filter_location_unique (l : list (Z * Z * list float)) (j : nat)
    (w : Z * Z * list float) :
  NoDup ((λ w, w.1.1) <$> l) → l !! j = Some w →
  filter (λ w', w'.1.1 = w.1.1) l = [w].
Proof.
  revert j. induction l as [|x l IH]; intros j Hnd Hj; [done|].
  rewrite fmap_cons in Hnd. apply NoDup_cons in Hnd as [Hx Hnd].
  destruct j as [|j]; simpl in Hj.
  - injection Hj as ->. rewrite filter_cons_True by done. f_equal.
    apply filter_none, Forall_forall. intros y Hy Heq. apply Hx.
    rewrite <- Heq. apply list_elem_of_fmap. by exists y.
  - rewrite filter_cons_False; [by apply (IH j)|].
    intros Heq. apply Hx. rewrite Heq. apply list_elem_of_fmap.
    exists w. split; [done|]. by apply list_elem_of_lookup_2 in Hj.
Qed.

Section Shader.
Context `{Host}.

(** What the constructor leaves: the eight names resolved once each, in
    this order, after whatever the base class resolved, and the four fields
    holding the locations. *)
Lemma _init_fields (effect : Fire) :
  located (glsl (_init effect))
  = located (Shader_init effect) ++ declared_uniforms
  ∧ written (glsl (_init effect)) = written (Shader_init effect)
  ∧ _uGradient (_init effect) = uniform_location <$> gradient_uniforms
  ∧ _u3DNoise (_init effect) = uniform_location "u3DNoise"
  ∧ _uScale (_init effect) = uniform_location "uScale"
  ∧ _uMovementSpeed (_init effect) = uniform_location "uMovementSpeed".
Proof.
  unfold _init, get_uniform_location. simpl.
  by rewrite <- !app_assoc.
Qed.

Lemma set_uniform_float_mk (uniform n : Z) (values : list jsval)
    (g : list string) (w : list (Z * Z * list float)) (ug : list Z)
    (un us um : Z) :
  set_uniform_float uniform n values (mkShader (mkGLSL g w) ug un us um)
  = mkShader (mkGLSL g (w ++ [(uniform, n, to_number <$> values)]))
      ug un us um.
Proof. reflexivity. Qed.

Lemma load_gradient_step (s : Settings.t) (i : nat) (key str : string)
    (uniform : Z) (this : ShaderClass) :
  "fire-color-" +:+ pretty i = key →
  Settings.get_string s key = Some str →
  _uGradient this !! (i - 1) = Some uniform →
  load_gradient s i this
  = Some (set_uniform_float uniform 4
            (JNumber <$> gradient_values (color_from_string str).2) this).
Proof. unfold load_gradient. by intros -> -> ->. Qed.

Lemma beginAnimation_result (actor : Actor) (s : Settings.t)
    (forOpening : bool) (this : ShaderClass) (c1 c2 c3 c4 c5 : string)
    (noise : bool) (scale speed : float) :
  length (_uGradient this) = 5 →
  Settings.get_string s "fire-color-1" = Some c1 →
  Settings.get_string s "fire-color-2" = Some c2 →
  Settings.get_string s "fire-color-3" = Some c3 →
  Settings.get_string s "fire-color-4" = Some c4 →
  Settings.get_string s "fire-color-5" = Some c5 →
  Settings.get_boolean s "flame-3d-noise" = Some noise →
  Settings.get_double s "flame-scale" = Some scale →
  Settings.get_double s "flame-movement-speed" = Some speed →
  let base := Shader_beginAnimation actor s forOpening (glsl this) in
  beginAnimation actor s forOpening this
  = Some {| glsl :=
              {| located := located base;
                 written :=
                   written base
                   ++ own_writes this (color_from_string c1).2
                        (color_from_string c2).2 (color_from_string c3).2
                        (color_from_string c4).2 (color_from_string c5).2
                        noise scale speed |};
            _uGradient := _uGradient this;
            _u3DNoise := _u3DNoise this;
            _uScale := _uScale this;
            _uMovementSpeed := _uMovementSpeed this |}.
Proof.
  intros Hlen H1 H2 H3 H4 H5 Hn Hs Hm base.
  destruct this as [g ug un us um]. simpl in *.
  destruct ug as [|g1 [|g2 [|g3 [|g4 [|g5 [|? ?]]]]]]; try discriminate.
  unfold beginAnimation, for_loop. cbn [glsl _uGradient _u3DNoise _uScale
    _uMovementSpeed Nat.sub for_rounds].
  fold base. destruct base as [bl bw].
  rewrite (load_gradient_step s 1 "fire-color-1" c1 g1) by done.
  rewrite set_uniform_float_mk. cbn [mbind option_bind].
  rewrite (load_gradient_step s 2 "fire-color-2" c2 g2) by done.
  rewrite set_uniform_float_mk. cbn [mbind option_bind].
  rewrite (load_gradient_step s 3 "fire-color-3" c3 g3) by done.
  rewrite set_uniform_float_mk. cbn [mbind option_bind].
  rewrite (load_gradient_step s 4 "fire-color-4" c4 g4) by done.
  rewrite set_uniform_float_mk. cbn [mbind option_bind].
  rewrite (load_gradient_step s 5 "fire-color-5" c5 g5) by done.
  rewrite set_uniform_float_mk. cbn [mbind option_bind].
  rewrite Hn, Hs, Hm.
  cbn [mbind option_bind _u3DNoise _uScale _uMovementSpeed].
  rewrite !set_uniform_float_mk. unfold own_writes.
  cbn [located written _uGradient _u3DNoise _uScale _uMovementSpeed lookup
       list_lookup default].
  rewrite <- !app_assoc. destruct noise; reflexivity.
Qed.

End Shader.

Lemma own_writes_to (base : GLSLEffect) (W : list (Z * Z * list float))
    (j : nat) (w : Z * Z * list float) :
  writes_to w.1.1 base = [] →
  NoDup ((λ w, w.1.1) <$> W) →
  W !! j = Some w →
  writes_to w.1.1 (mkGLSL (located base) (written base ++ W))
  = [(w.1.2, w.2)].
Proof.
  unfold writes_to. intros Hb Hnd Hj. cbn [written].
  rewrite filter_app, fmap_app, Hb, (filter_location_unique W j w Hnd Hj).
  reflexivity.
Qed.

(** C1: on a configuration in which the eight keys can be read at their
    types, [beginAnimation] on a freshly constructed shader object succeeds,
    and after the calls of the base class it makes exactly eight calls of
    [set_uniform_float], one for each declared uniform, at the location the
    constructor resolved for it: for each [uGradient<i>] the four channels
    of the colour of [fire-color-<i>], each divided by 255 and so between 0
    and 1; for [u3DNoise] the one number 1 or 0 of the boolean
    [flame-3d-noise], so [[1.0]] when it is true; for [uScale] and
    [uMovementSpeed] the numbers of [flame-scale] and
    [flame-movement-speed]. When the eight locations are pairwise distinct
    and the base class writes to none of them, each of the eight uniforms
    has received exactly one write. *)
Theorem beginAnimation_writes_each_uniform_once `{Host} (effect : Fire)
    (actor : Actor) (s : Settings.t) (forOpening : bool) :
  config_valid s →
  let quadruple := λ str,
    let c := (color_from_string str).2 in
    [(channel (red c) / 255)%float; (channel (green c) / 255)%float;
     (channel (blue c) / 255)%float; (channel (alpha c) / 255)%float] in
  let base :=
    Shader_beginAnimation actor s forOpening (glsl (_init effect)) in
  ∃ this' c1 c2 c3 c4 c5 noise scale speed,
    beginAnimation actor s forOpening (_init effect) = Some this'
    ∧ Settings.get_string s "fire-color-1" = Some c1
    ∧ Settings.get_string s "fire-color-2" = Some c2
    ∧ Settings.get_string s "fire-color-3" = Some c3
    ∧ Settings.get_string s "fire-color-4" = Some c4
    ∧ Settings.get_string s "fire-color-5" = Some c5
    ∧ Settings.get_boolean s "flame-3d-noise" = Some noise
    ∧ Settings.get_double s "flame-scale" = Some scale
    ∧ Settings.get_double s "flame-movement-speed" = Some speed
    ∧ written (glsl this')
      = written base
        ++ [(uniform_location "uGradient1", 4%Z, quadruple c1);
            (uniform_location "uGradient2", 4%Z, quadruple c2);
            (uniform_location "uGradient3", 4%Z, quadruple c3);
            (uniform_location "uGradient4", 4%Z, quadruple c4);
            (uniform_location "uGradient5", 4%Z, quadruple c5);
            (uniform_location "u3DNoise", 1%Z,
             [if noise then 1%float else 0%float]);
            (uniform_location "uScale", 1%Z, [scale]);
            (uniform_location "uMovementSpeed", 1%Z, [speed])]
    ∧ Forall (λ str, Forall in_unit_interval (quadruple str))
        [c1; c2; c3; c4; c5]
    ∧ (noise = true →
       (uniform_location "u3DNoise", 1%Z, [1.0%float])
       ∈ written (glsl this'))
    ∧ (NoDup (uniform_location <$> declared_uniforms) →
       (∀ nm, nm ∈ declared_uniforms →
          writes_to (uniform_location nm) base = []) →
       Forall (λ nm,
           length (writes_to (uniform_location nm) (glsl this')) = 1)
         ["uGradient1"; "uGradient2"; "uGradient3"; "uGradient4";
          "uGradient5"; "u3DNoise"; "uScale"; "uMovementSpeed"]
       ∧ writes_to (uniform_location "u3DNoise") (glsl this')
         = [(1%Z, [if noise then 1%float else 0%float])]).
Proof.
  intros (Hc & [noise Hn] & [sc Hs] & [sp Hm]) quadruple base.
  unfold color_keys in Hc.
  apply Forall_cons in Hc as [[c1 H1] Hc]. apply Forall_cons in Hc as [[c2 H2] Hc].
  apply Forall_cons in Hc as [[c3 H3] Hc]. apply Forall_cons in Hc as [[c4 H4] Hc].
  apply Forall_cons in Hc as [[c5 H5] _].
  destruct (_init_fields effect) as (_ & _ & Hug & Hun & Hus & Hum).
  eexists _, c1, c2, c3, c4, c5, noise, sc, sp. split.
  { apply (beginAnimation_result actor s forOpening (_init effect)
             c1 c2 c3 c4 c5 noise sc sp); first [done | by rewrite Hug]. }
  do 8 (split; [assumption|]).
  cbn [glsl written]. fold base.
  set (W := own_writes _ _ _ _ _ _ _ _ _).
  assert (HW : W =
    [(uniform_location "uGradient1", 4%Z, quadruple c1);
     (uniform_location "uGradient2", 4%Z, quadruple c2);
     (uniform_location "uGradient3", 4%Z, quadruple c3);
     (uniform_location "uGradient4", 4%Z, quadruple c4);
     (uniform_location "uGradient5", 4%Z, quadruple c5);
     (uniform_location "u3DNoise", 1%Z, [if noise then 1%float else 0%float]);
     (uniform_location "uScale", 1%Z, [sc]);
     (uniform_location "uMovementSpeed", 1%Z, [sp])]).
  { subst W. unfold own_writes. rewrite Hug, Hun, Hus, Hum. reflexivity. }
  clearbody W. subst W.
  set (W := [_; _; _; _; _; _; _; _]).
  split; [reflexivity|]. split; [|split].
  - repeat constructor; apply channel_unit_interval.
  - intros ->. apply elem_of_app. right. subst W.
    apply (list_elem_of_lookup_2 _ 5). reflexivity.
  - intros Hnd Hbase.
    assert (HndW : NoDup ((λ w, w.1.1) <$> W)) by exact Hnd.
    assert (Hone : ∀ j w, W !! j = Some w → w.1.1 ∈
              (uniform_location <$> declared_uniforms) →
              writes_to w.1.1 (mkGLSL (located base) (written base ++ W))
              = [(w.1.2, w.2)]).
    { intros j w Hj Hin. apply (own_writes_to base W j w); [|done..].
      apply list_elem_of_fmap in Hin as (nm & -> & Hin). by apply Hbase. }
    assert (Hin : ∀ nm, nm ∈ declared_uniforms →
              uniform_location nm ∈ uniform_location <$> declared_uniforms).
    { intros nm Hnm. apply list_elem_of_fmap. by exists nm. }
    pose proof (Hone 0 _ eq_refl (Hin "uGradient1"
      (list_elem_of_lookup_2 declared_uniforms 0 _ eq_refl))) as E1.
    pose proof (Hone 1 _ eq_refl (Hin "uGradient2"
      (list_elem_of_lookup_2 declared_uniforms 1 _ eq_refl))) as E2.
    pose proof (Hone 2 _ eq_refl (Hin "uGradient3"
      (list_elem_of_lookup_2 declared_uniforms 2 _ eq_refl))) as E3.
    pose proof (Hone 3 _ eq_refl (Hin "uGradient4"
      (list_elem_of_lookup_2 declared_uniforms 3 _ eq_refl))) as E4.
    pose proof (Hone 4 _ eq_refl (Hin "uGradient5"
      (list_elem_of_lookup_2 declared_uniforms 4 _ eq_refl))) as E5.
    pose proof (Hone 5 _ eq_refl (Hin "u3DNoise"
      (list_elem_of_lookup_2 declared_uniforms 5 _ eq_refl))) as E6.
    pose proof (Hone 6 _ eq_refl (Hin "uScale"
      (list_elem_of_lookup_2 declared_uniforms 6 _ eq_refl))) as E7.
    pose proof (Hone 7 _ eq_refl (Hin "uMovementSpeed"
      (list_elem_of_lookup_2 declared_uniforms 7 _ eq_refl))) as E8.
    cbn [fst snd] in E1, E2, E3, E4, E5, E6, E7, E8.
    clearbody W base. clear Hone Hin HndW.
    split; [|exact E6].
    repeat constructor.
    + by rewrite E1. + by rewrite E2. + by rewrite E3. + by rewrite E4.
    + by rewrite E5. + by rewrite E6. + by rewrite E7. + by rewrite E8.
Qed.

(** The scenario of the spec: [flame-3d-noise] set to true. *)
Lemma beginAnimation_writes_each_uniform_once_witness :
  config_valid example_store_noise
  ∧ Settings.get_boolean example_store_noise "flame-3d-noise" = Some true
  ∧ ∃ this',
      @beginAnimation example_host tt example_store_noise true
        (@_init example_host (mkFire None)) = Some this'
      ∧ writes_to (@uniform_location example_host "u3DNoise") (glsl this')
        = [(1%Z, [1.0%float])]
      ∧ writes_to (@uniform_location example_host "uGradient1") (glsl this')
        = [(4%Z, [1.0%float; (200 / 255)%float; 0.0%float; 1.0%float])]
      ∧ Forall (λ nm,
            length (writes_to (@uniform_location example_host nm)
                      (glsl this')) = 1)
          ["uGradient1"; "uGradient2"; "uGradient3"; "uGradient4";
           "uGradient5"; "u3DNoise"; "uScale"; "uMovementSpeed"].
Proof.
  assert (Hc : config_valid example_store_noise).
  { unfold config_valid, color_keys.
    repeat split; repeat constructor; vm_compute; by eexists. }
  assert (Hnd : NoDup (@uniform_location example_host <$> declared_uniforms)).
  { apply (bool_decide_unpack _). vm_compute. exact I. }
  assert (Hbase : ∀ nm, nm ∈ declared_uniforms →
    writes_to (@uniform_location example_host nm)
      (@Shader_beginAnimation example_host tt example_store_noise true
         (glsl (@_init example_host (mkFire None)))) = []).
  { intros nm Hin. unfold declared_uniforms, gradient_uniforms in Hin.
    cbn [app] in Hin. rewrite !elem_of_cons in Hin.
    destruct Hin as [->|[->|[->|[->|[->|[->|[->|[->|Hin]]]]]]]];
      [vm_compute; reflexivity.. | by apply elem_of_nil in Hin]. }
  split; [exact Hc|]. split; [vm_compute; reflexivity|].
  destruct (@beginAnimation_writes_each_uniform_once example_host
              (mkFire None) tt example_store_noise true Hc)
    as (this' & c1 & c2 & c3 & c4 & c5 & noise & sc & sp & Hb & H1 & _ & _
        & _ & _ & Hn & _ & _ & Hw & _ & _ & Hone).
  exists this'. split; [exact Hb|].
  destruct (Hone Hnd Hbase) as [Hall _].
  vm_compute in H1, Hn. injection H1 as <-. injection Hn as <-.
  split; [|split; [|exact Hall]].
  - unfold writes_to. rewrite Hw. vm_compute. reflexivity.
  - unfold writes_to. rewrite Hw. vm_compute. reflexivity.
Defined.

(** On a valid configuration [beginAnimation] succeeds; it resolves no
    location and leaves the four fields as they were. *)
Lemma beginAnimation_valid `{Host} (actor : Actor) (s : Settings.t)
    (forOpening : bool) (this : ShaderClass) :
  config_valid s →
  length (_uGradient this) = 5 →
  ∃ this' speed,
    beginAnimation actor s forOpening this = Some this'
    ∧ located (glsl this')
      = located (Shader_beginAnimation actor s forOpening (glsl this))
    ∧ _uGradient this' = _uGradient this
    ∧ _u3DNoise this' = _u3DNoise this
    ∧ _uScale this' = _uScale this
    ∧ _uMovementSpeed this' = _uMovementSpeed this
    ∧ Settings.get_double s "flame-movement-speed" = Some speed
    ∧ last (written (glsl this')) = Some (_uMovementSpeed this, 1%Z, [speed]).
Proof.
  intros (Hc & [noise Hn] & [sc Hs] & [sp Hm]) Hlen.
  unfold color_keys in Hc.
  apply Forall_cons in Hc as [[c1 H1] Hc]. apply Forall_cons in Hc as [[c2 H2] Hc].
  apply Forall_cons in Hc as [[c3 H3] Hc]. apply Forall_cons in Hc as [[c4 H4] Hc].
  apply Forall_cons in Hc as [[c5 H5] _].
  eexists _, sp. split.
  { by apply (beginAnimation_result actor s forOpening this
                c1 c2 c3 c4 c5 noise sc sp). }
  cbn [glsl located written _uGradient _u3DNoise _uScale _uMovementSpeed].
  do 6 (split; [done|]). unfold own_writes.
  by rewrite last_app.
Qed.

Lemma beginAnimation_all_valid `{Host}
    (calls : list (Actor * Settings.t * bool)) (this : ShaderClass) :
  Forall (λ c, config_valid c.1.2) calls →
  length (_uGradient this) = 5 →
  ∃ this',
    beginAnimation_all calls this = Some this'
    ∧ _uGradient this' = _uGradient this
    ∧ _u3DNoise this' = _u3DNoise this
    ∧ _uScale this' = _uScale this
    ∧ _uMovementSpeed this' = _uMovementSpeed this
    ∧ ((∀ a s f g, located (Shader_beginAnimation a s f g) = located g) →
       located (glsl this') = located (glsl this)).
Proof.
  intros Hcalls. revert this.
  induction Hcalls as [|[[a s] f] calls Hc _ IH]; intros this Hlen.
  - by exists this.
  - destruct (beginAnimation_valid a s f this Hc Hlen)
      as (this1 & sp & Hb & Hl & Hg & Hn & Hs & Hm & _).
    destruct (IH this1) as (this' & Hb' & Hg' & Hn' & Hs' & Hm' & Hl');
      [by rewrite Hg|].
    exists this'. cbn [beginAnimation_all]. rewrite Hb.
    cbn [mbind option_bind]. rewrite Hb', Hg', Hn', Hs', Hm', Hg, Hn, Hs, Hm.
    do 5 (split; [done|]). intros Hbase. by rewrite (Hl' Hbase), Hl, Hbase.
Qed.

(** C8: the constructor resolves the eight declared names, once each and
    in this order, after whatever the base class resolved, and stores the
    locations in the four fields. Any run of [beginAnimation] calls on the
    object, each on a valid configuration, succeeds and leaves the four
    fields as the constructor set them; [beginAnimation] makes no call of
    [get_uniform_location] itself, so that with a base class whose own
    [beginAnimation] resolves nothing, the names resolved after the run are
    those resolved at construction. *)
Theorem uniform_locations_resolved_once `{Host} (effect : Fire)
    (calls : list (Actor * Settings.t * bool)) :
  Forall (λ c, config_valid c.1.2) calls →
  located (glsl (_init effect))
  = located (Shader_init effect)
    ++ ["uGradient1"; "uGradient2"; "uGradient3"; "uGradient4";
        "uGradient5"; "u3DNoise"; "uScale"; "uMovementSpeed"]
  ∧ _uGradient (_init effect)
    = [uniform_location "uGradient1"; uniform_location "uGradient2";
       uniform_location "uGradient3"; uniform_location "uGradient4";
       uniform_location "uGradient5"]
  ∧ _u3DNoise (_init effect) = uniform_location "u3DNoise"
  ∧ _uScale (_init effect) = uniform_location "uScale"
  ∧ _uMovementSpeed (_init effect) = uniform_location "uMovementSpeed"
  ∧ ∃ this',
      beginAnimation_all calls (_init effect) = Some this'
      ∧ _uGradient this' = _uGradient (_init effect)
      ∧ _u3DNoise this' = _u3DNoise (_init effect)
      ∧ _uScale this' = _uScale (_init effect)
      ∧ _uMovementSpeed this' = _uMovementSpeed (_init effect)
      ∧ ((∀ a s f g, located (Shader_beginAnimation a s f g) = located g) →
         located (glsl this') = located (glsl (_init effect))).
Proof.
  intros Hcalls.
  destruct (_init_fields effect) as (Hl & _ & Hg & Hn & Hs & Hm).
  do 5 (split; [done|]).
  apply beginAnimation_all_valid; [done|]. by rewrite Hg.
Qed.

(** Two animations on one object. *)
Lemma uniform_locations_resolved_once_witness :
  config_valid example_store ∧ config_valid example_store_noise
  ∧ ∃ this',
      @beginAnimation_all example_host
        [(tt, example_store, true); (tt, example_store_noise, false)]
        (@_init example_host (mkFire None)) = Some this'
      ∧ located (glsl this')
        = ["uForOpening"; "uProgress"; "uGradient1"; "uGradient2";
           "uGradient3"; "uGradient4"; "uGradient5"; "u3DNoise"; "uScale";
           "uMovementSpeed"].
Proof.
  assert (Hc1 : config_valid example_store).
  { unfold config_valid, color_keys.
    repeat split; repeat constructor; vm_compute; by eexists. }
  assert (Hc2 : config_valid example_store_noise).
  { unfold config_valid, color_keys.
    repeat split; repeat constructor; vm_compute; by eexists. }
  split; [exact Hc1|]. split; [exact Hc2|].
  destruct (@uniform_locations_resolved_once example_host (mkFire None)
              [(tt, example_store, true); (tt, example_store_noise, false)])
    as (Hl & _ & _ & _ & _ & this' & Hb & _ & _ & _ & _ & Hl').
  { constructor; [exact Hc1|]. constructor; [exact Hc2|]. constructor. }
  exists this'. split; [exact Hb|]. rewrite Hl', Hl; reflexivity.
Defined.

(** ** A running animation *)

Lemma uniform_value_last (location n : Z) (values : list float)
    (this : ShaderClass) :
  last (written (glsl this)) = Some (location, n, values) →
  uniform_value location this = Some values.
Proof.
  unfold uniform_value. intros Hl. apply last_Some in Hl as [l ->].
  rewrite filter_app, filter_cons_True, filter_nil by done.
  by rewrite last_snoc.
Qed.

Section Running.
Context `{Host}.

(** In the process, the loop body does what [load_gradient] does to the
    object, and reads one key. *)
Lemma load_gradient_on_spec (i : nat) (w : World) :
  load_gradient_on i w
  = this' ← load_gradient (store w) i (shader w);
    Some {| store := store w;
            reads := reads w ++ ["fire-color-" +:+ pretty i];
            changed := changed w;
            shader := this' |}.
Proof.
  unfold load_gradient_on, load_gradient, settings_get_string.
  destruct (Settings.get_string (store w) _) as [str|]; [|done].
  cbn [mbind option_bind logged on_this shader store reads changed].
  by destruct (_uGradient (shader w) !! (i - 1)).
Qed.

Lemma gradient_rounds_on (n i : nat) (w : World) :
  for_rounds n i load_gradient_on w
  = this' ← for_rounds n i (load_gradient (store w)) (shader w);
    Some {| store := store w;
            reads := reads w
                     ++ ((λ j, "fire-color-" +:+ pretty j) <$> seq i n);
            changed := changed w;
            shader := this' |}.
Proof.
  revert i w. induction n as [|n IH]; intros i w.
  - cbn. rewrite app_nil_r. by destruct w.
  - cbn [for_rounds]. rewrite load_gradient_on_spec.
    destruct (load_gradient (store w) i (shader w)) as [this1|]; [|done].
    cbn [mbind option_bind]. rewrite IH.
    cbn [store reads changed shader seq fmap list_fmap].
    destruct (for_rounds n (S i) _ this1); [|done].
    cbn [mbind option_bind]. rewrite <- app_assoc. reflexivity.
Qed.

(** In the process, [beginAnimation] does what it does to the object, reads
    the eight keys in this order, writes nothing to the store and connects
    no handler. *)
Lemma beginAnimation_on_spec (actor : Actor) (forOpening : bool)
    (w : World) :
  beginAnimation_on actor forOpening w
  = this' ← beginAnimation actor (store w) forOpening (shader w);
    Some {| store := store w;
            reads := reads w ++ config_keys;
            changed := changed w;
            shader := this' |}.
Proof.
  unfold beginAnimation_on, beginAnimation, for_loop.
  rewrite gradient_rounds_on. cbn [on_this store reads changed shader].
  destruct (for_rounds _ _ _ _) as [this1|]; [|done].
  cbn [mbind option_bind].
  unfold settings_get_boolean, settings_get_double.
  cbn [store reads changed shader].
  destruct (Settings.get_boolean (store w) _) as [noise|]; [|done].
  cbn [mbind option_bind logged on_this store reads changed shader].
  destruct (Settings.get_double (store w) "flame-scale") as [sc|]; [|done].
  cbn [mbind option_bind logged on_this store reads changed shader].
  destruct (Settings.get_double (store w) "flame-movement-speed") as [sp|];
    [|done].
  cbn [mbind option_bind logged on_this store reads changed shader].
  unfold on_this, logged. cbn [store reads changed shader].
  do 2 f_equal. rewrite <- !app_assoc. reflexivity.
Qed.

Lemma gradient_rounds_fields (n i : nat) (s : Settings.t)
    (this this' : ShaderClass) :
  for_rounds n i (load_gradient s) this = Some this' →
  _uGradient this' = _uGradient this
  ∧ _u3DNoise this' = _u3DNoise this
  ∧ _uScale this' = _uScale this
  ∧ _uMovementSpeed this' = _uMovementSpeed this.
Proof.
  revert i this. induction n as [|n IH]; intros i this.
  - cbn. by intros [= <-].
  - cbn [for_rounds].
    destruct (load_gradient s i this) as [this1|] eqn:E; [|done].
    cbn [mbind option_bind]. intros Hr.
    destruct (IH _ _ Hr) as (-> & -> & -> & ->).
    unfold load_gradient in E.
    destruct (Settings.get_string s _); [|done].
    cbn [mbind option_bind] in E.
    destruct (_uGradient this !! (i - 1)); [|done].
    by injection E as <-.
Qed.

(** Whenever [beginAnimation] succeeds, the four fields are as before. *)
Lemma beginAnimation_fields (actor : Actor) (s : Settings.t)
    (forOpening : bool) (this this' : ShaderClass) :
  beginAnimation actor s forOpening this = Some this' →
  _uGradient this' = _uGradient this
  ∧ _u3DNoise this' = _u3DNoise this
  ∧ _uScale this' = _uScale this
  ∧ _uMovementSpeed this' = _uMovementSpeed this.
Proof.
  unfold beginAnimation, for_loop.
  destruct (for_rounds _ _ _ _) as [this1|] eqn:E; [|done].
  apply gradient_rounds_fields in E.
  cbn [_uGradient _u3DNoise _uScale _uMovementSpeed] in E.
  destruct E as (E1 & E2 & E3 & E4).
  cbn [mbind option_bind].
  destruct (Settings.get_boolean s _); [|done].
  destruct (Settings.get_double s "flame-scale"); [|done].
  destruct (Settings.get_double s "flame-movement-speed"); [|done].
  cbn [mbind option_bind]. intros [= <-].
  by rewrite <- E1, <- E2, <- E3, <- E4.
Qed.

(** With no handler connected, a write call changes the store and nothing
    else. *)
Lemma store_write_quiet (e : store_event) (w : World) :
  changed w = [] →
  store_write e w
  = {| store := written_store e (store w); reads := reads w;
       changed := []; shader := shader w |}.
Proof.
  destruct w as [s r c this]. cbn [changed]. intros ->.
  unfold store_write, written_store. cbn [store reads changed shader].
  by destruct (Settings.exec (store_command e) s).
Qed.

Lemma run_app (l1 l2 : list event) (w : World) :
  run (l1 ++ l2) w = run l1 w ≫= run l2.
Proof.
  revert w. induction l1 as [|ev l1 IH]; intros w; [done|].
  cbn [app run]. destruct (step w ev) as [w'|]; [|done].
  cbn [mbind option_bind]. apply IH.
Qed.

Lemma run_writes (writes : list store_event) (w : World) :
  changed w = [] →
  run (Write <$> writes) w
  = Some {| store := foldl (λ s e, written_store e s) (store w) writes;
            reads := reads w; changed := []; shader := shader w |}.
Proof.
  revert w. induction writes as [|e writes IH]; intros w Hc.
  - destruct w as [s r c this]. cbn in *. by subst.
  - cbn [fmap list_fmap run step mbind option_bind].
    rewrite (store_write_quiet e w Hc), IH by done.
    reflexivity.
Qed.

(** Whatever happened around an object since its construction: no handler
    is connected, the keys read are the eight keys of [beginAnimation] once
    for each animation started, and the four fields are as before. *)
Lemma run_invariant (events : list event) (w w' : World) :
  changed w = [] →
  run events w = Some w' →
  changed w' = []
  ∧ reads w' = reads w ++ mjoin (replicate (begins events) config_keys)
  ∧ _uGradient (shader w') = _uGradient (shader w)
  ∧ _u3DNoise (shader w') = _u3DNoise (shader w)
  ∧ _uScale (shader w') = _uScale (shader w)
  ∧ _uMovementSpeed (shader w') = _uMovementSpeed (shader w).
Proof.
  revert w. induction events as [|ev events IH]; intros w Hc.
  - cbn. intros [= <-]. by rewrite app_nil_r.
  - destruct ev as [e|actor forOpening]; cbn [run step begins].
    + cbn [mbind option_bind]. rewrite (store_write_quiet e w Hc).
      intros Hr. apply IH in Hr; [|done]. exact Hr.
    + rewrite beginAnimation_on_spec.
      destruct (beginAnimation actor (store w) forOpening (shader w))
        as [this1|] eqn:E; [|done].
      cbn [mbind option_bind]. intros Hr. apply IH in Hr; [|done].
      cbn [store reads changed shader] in Hr.
      destruct Hr as (Hc' & Hr' & H1 & H2 & H3 & H4).
      destruct (beginAnimation_fields _ _ _ _ _ E) as (E1 & E2 & E3 & E4).
      rewrite Hr', H1, H2, H3, H4, E1, E2, E3, E4.
      cbn [replicate mjoin list_join]. by rewrite <- app_assoc.
Qed.

End Running.

(** C7: take a shader object with any history since its construction
    (animations started on it, write calls on the store) and start an
    animation on it on a valid configuration. [beginAnimation] then reads
    the eight keys, once each, and writes to the eight uniforms what the
    store holds at that moment. Whatever write calls reach the store
    afterwards, they change the store and nothing else: no key is read
    again, and the object, with the eight values written, stays as
    [beginAnimation] left it. In the whole history the keys read are the
    eight keys of [beginAnimation], once for each animation started: the
    constructor and the write calls read nothing, and no method of the
    object connects a handler to the store. *)
Theorem running_animation_is_snapshot `{Host} (effect : Fire)
    (s0 : Settings.t) (earlier : list event) (w1 : World) (actor : Actor)
    (forOpening : bool) (writes : list store_event) :
  run earlier (new_world effect s0) = Some w1 →
  config_valid (store w1) →
  ∃ w2 w3 c1 c2 c3 c4 c5 noise scale speed,
    step w1 (Begin actor forOpening) = Some w2
    ∧ run (Write <$> writes) w2 = Some w3
    ∧ run (earlier ++ Begin actor forOpening :: (Write <$> writes))
        (new_world effect s0) = Some w3
    ∧ reads w1 = mjoin (replicate (begins earlier) config_keys)
    ∧ reads w2 = reads w1 ++ config_keys
    ∧ reads w3 = reads w2
    ∧ store w2 = store w1
    ∧ store w3 = foldl (λ s e, written_store e s) (store w1) writes
    ∧ changed w3 = []
    ∧ Settings.get_string (store w1) "fire-color-1" = Some c1
    ∧ Settings.get_string (store w1) "fire-color-2" = Some c2
    ∧ Settings.get_string (store w1) "fire-color-3" = Some c3
    ∧ Settings.get_string (store w1) "fire-color-4" = Some c4
    ∧ Settings.get_string (store w1) "fire-color-5" = Some c5
    ∧ Settings.get_boolean (store w1) "flame-3d-noise" = Some noise
    ∧ Settings.get_double (store w1) "flame-scale" = Some scale
    ∧ Settings.get_double (store w1) "flame-movement-speed" = Some speed
    ∧ beginAnimation actor (store w1) forOpening (shader w1)
      = Some (shader w2)
    ∧ shader w3 = shader w2
    ∧ written (glsl (shader w3))
      = written (Shader_beginAnimation actor (store w1) forOpening
                   (glsl (shader w1)))
        ++ own_writes (_init effect) (color_from_string c1).2
             (color_from_string c2).2 (color_from_string c3).2
             (color_from_string c4).2 (color_from_string c5).2
             noise scale speed.
Proof.
  intros Hrun (Hc & [noise Hn] & [sc Hs] & [sp Hm]).
  unfold color_keys in Hc.
  apply Forall_cons in Hc as [[c1 H1] Hc]. apply Forall_cons in Hc as [[c2 H2] Hc].
  apply Forall_cons in Hc as [[c3 H3] Hc]. apply Forall_cons in Hc as [[c4 H4] Hc].
  apply Forall_cons in Hc as [[c5 H5] _].
  destruct (run_invariant earlier (new_world effect s0) w1 eq_refl Hrun)
    as (Hch & Hrd & Hg & Hun & Hus & Hum).
  cbn [new_world reads shader app] in Hrd, Hg, Hun, Hus, Hum.
  assert (Hlen : length (_uGradient (shader w1)) = 5).
  { rewrite Hg. by destruct (_init_fields effect) as (_ & _ & -> & _). }
  pose proof (beginAnimation_result actor (store w1) forOpening (shader w1)
                c1 c2 c3 c4 c5 noise sc sp Hlen H1 H2 H3 H4 H5 Hn Hs Hm)
    as Hb.
  cbv zeta in Hb.
  assert (Hw : own_writes (shader w1) (color_from_string c1).2
                 (color_from_string c2).2 (color_from_string c3).2
                 (color_from_string c4).2 (color_from_string c5).2
                 noise sc sp
               = own_writes (_init effect) (color_from_string c1).2
                   (color_from_string c2).2 (color_from_string c3).2
                   (color_from_string c4).2 (color_from_string c5).2
                   noise sc sp).
  { unfold own_writes. by rewrite Hg, Hun, Hus, Hum. }
  rewrite Hw in Hb. clear Hw.
  set (this2 := mkShader _ _ _ _ _) in Hb.
  set (w2 := {| store := store w1; reads := reads w1 ++ config_keys;
                changed := changed w1; shader := this2 |}).
  assert (Hstep : step w1 (Begin actor forOpening) = Some w2).
  { cbn [step]. rewrite beginAnimation_on_spec, Hb. reflexivity. }
  assert (Hw3 : run (Write <$> writes) w2
                = Some {| store := foldl (λ s e, written_store e s)
                                     (store w1) writes;
                          reads := reads w1 ++ config_keys;
                          changed := []; shader := this2 |}).
  { by rewrite (run_writes writes w2 Hch). }
  eexists w2, _, c1, c2, c3, c4, c5, noise, sc, sp.
  split; [exact Hstep|]. split; [exact Hw3|].
  split.
  { rewrite run_app, Hrun. cbn [mbind option_bind run]. rewrite Hstep.
    cbn [mbind option_bind]. exact Hw3. }
  split; [exact Hrd|].
  cbn [store reads changed shader].
  do 13 (split; [done|]). split; [exact Hb|]. split; [done|].
  reflexivity.
Qed.

(** An object that has shown one animation; the user then sets the
    movement speed to 0.2, a second animation starts, and while it runs the
    speed is set to 1.5 and the first colour is reset. The store reads 1.5,
    the uniform of the running animation holds 0.2, and sixteen keys were
    read in all. *)
Lemma running_animation_is_snapshot_witness :
  let earlier :=
    [@Begin example_host tt true;
     @Write example_host (SetDouble "flame-movement-speed" 0.2%float)] in
  let w0 := @new_world example_host (mkFire None) example_store_noise in
  let w1 := default w0 (@run example_host earlier w0) in
  @run example_host earlier w0 = Some w1
  ∧ config_valid (store w1)
  ∧ ∃ w3,
      @run example_host
        (earlier ++ @Begin example_host tt false
                    :: (@Write example_host
                          <$> [SetDouble "flame-movement-speed" 1.5%float;
                               Reset "fire-color-1"])) w0 = Some w3
      ∧ Settings.get_double (store w3) "flame-movement-speed"
        = Some 1.5%float
      ∧ last (written (glsl (shader w3)))
        = Some (@uniform_location example_host "uMovementSpeed", 1%Z,
                [0.2%float])
      ∧ length (reads w3) = 16.
Proof.
  intros earlier w0 w1.
  assert (H1 : @run example_host earlier w0 = Some w1).
  { vm_compute. reflexivity. }
  assert (Hc : config_valid (store w1)).
  { unfold config_valid, color_keys.
    repeat split; repeat constructor; vm_compute; by eexists. }
  split; [exact H1|]. split; [exact Hc|].
  destruct (@running_animation_is_snapshot example_host (mkFire None)
              example_store_noise earlier w1 tt false
              [SetDouble "flame-movement-speed" 1.5%float;
               Reset "fire-color-1"] H1 Hc)
    as (w2 & w3 & c1 & c2 & c3 & c4 & c5 & noise & sc & sp & _ & _ & Hr
        & Hr1 & Hr2 & Hr3 & _ & Hs3 & _ & _ & _ & _ & _ & _ & _ & _ & Hsp
        & _ & _ & Hw).
  exists w3. split; [exact Hr|].
  split; [rewrite Hs3; vm_compute; reflexivity|].
  split.
  - rewrite Hw. unfold own_writes. rewrite last_app. cbn [last].
    vm_compute in Hsp. injection Hsp as <-. reflexivity.
  - rewrite Hr3, Hr2, Hr1. vm_compute. reflexivity.
Defined.

(** ** [createShader] *)

Section CreateShader.
Context `{Host}.

(** One call: the class is registered when the field is still unset, and
    only then; the object built is put at a new address. *)
Lemma createShader_once (p : Process) :
  (createShader p).1 = length (heap p)
  ∧ classes (createShader p).2
    = classes p + match _ShaderClass (fire p) with Some _ => 0 | None => 1 end
  ∧ is_Some (_ShaderClass (fire (createShader p).2))
  ∧ heap (createShader p).2
    = heap p ++ [_init (fire (createShader p).2)]
  ∧ (is_Some (_ShaderClass (fire p)) → fire (createShader p).2 = fire p).
Proof.
  unfold createShader, registerClass.
  destruct (_ShaderClass (fire p)) as [cls|] eqn:Hcls; simpl.
  - rewrite Hcls. split; [done|]. split; [lia|]. split; [by eexists|done].
  - split; [done|]. split; [lia|]. split; [by eexists|].
    split; [done|]. by intros [? ?].
Qed.

Lemma createShader_times_S (n : nat) (p : Process) :
  createShader_times (S n) p
  = ((createShader p).1 :: (createShader_times n (createShader p).2).1,
     (createShader_times n (createShader p).2).2).
Proof.
  change (createShader_times (S n) p)
    with (let '(a, p1) := createShader p in
          let '(l, p2) := createShader_times n p1 in (a :: l, p2)).
  destruct (createShader p) as [a p1]. cbn [fst snd].
  by destruct (createShader_times n p1).
Qed.

Lemma createShader_times_spec (n : nat) (p : Process) :
  (createShader_times n p).1 = seq (length (heap p)) n
  ∧ classes (createShader_times n p).2
    = classes p
      + match _ShaderClass (fire p), n with
        | None, S _ => 1
        | _, _ => 0
        end
  ∧ heap (createShader_times n p).2
    = heap p ++ replicate n (_init (fire (createShader p).2)).
Proof.
  revert p. induction n as [|n IH]; intros p.
  - simpl. rewrite app_nil_r.
    repeat split. destruct (_ShaderClass (fire p)); lia.
  - rewrite createShader_times_S. cbn [fst snd].
    destruct (createShader_once p) as (Ha & Hc & Hs & Hh & _).
    destruct (createShader_once (createShader p).2) as (_ & _ & _ & _ & Hf).
    destruct (IH (createShader p).2) as (IHa & IHc & IHh).
    rewrite IHa, IHc, IHh, (Hf Hs), Ha, Hc, Hh, length_app.
    destruct Hs as [cls ->]. simpl.
    split; [by rewrite Nat.add_1_r|]. split; [lia|].
    by rewrite <- app_assoc.
Qed.

End CreateShader.

Section Effects.
Context `{Host}.




End Effects.




(** * Further properties *)

(** ** The conversion of a colour channel *)

(** All pairs of byte values, checked by computation. *)
Lemma channel_order_table :
  forallb (λ n,
    forallb (λ m,
      Bool.eqb (n <? m)%N
        (PrimFloat.ltb
           (of_uint63 (Uint63.of_Z (Z.of_N n)) / 255)
           (of_uint63 (Uint63.of_Z (Z.of_N m)) / 255)))
      (N.of_nat <$> seq 0 256))
    (N.of_nat <$> seq 0 256) = true.
Proof. vm_compute. reflexivity. Qed.

Lemma byte_in_range (b : byte) :
  In (Byte.to_N b) (N.of_nat <$> seq 0 256).
Proof.
  apply list_elem_of_In, list_elem_of_fmap.
  exists (N.to_nat (Byte.to_N b)). split; [by rewrite N2Nat.id|].
  apply elem_of_seq. pose proof (Byte.to_N_bounded b). lia.
Qed.

(** X1: dividing a channel by 255 keeps the order of the byte values
    strictly, so that distinct bytes give distinct numbers; byte 0 gives
    exactly 0 and byte 255 exactly 1. *)
Theorem channel_over_255_strictly_monotone (a b : byte) :
  (PrimFloat.ltb (channel a / 255) (channel b / 255) = true
   ↔ (Byte.to_N a < Byte.to_N b)%N)
  ∧ ((channel a / 255)%float = (channel b / 255)%float → a = b)
  ∧ (channel x00 / 255)%float = 0%float
  ∧ (channel xff / 255)%float = 1%float.
Proof.
  assert (Hlt : ∀ a b,
    PrimFloat.ltb (channel a / 255) (channel b / 255)
    = (Byte.to_N a <? Byte.to_N b)%N).
  { intros x y. pose proof channel_order_table as Ht.
    rewrite forallb_forall in Ht. specialize (Ht _ (byte_in_range x)).
    rewrite forallb_forall in Ht. specialize (Ht _ (byte_in_range y)).
    apply Bool.eqb_prop in Ht. unfold channel. by rewrite Ht. }
  split; [|split; [|split; reflexivity]].
  - rewrite Hlt. apply N.ltb_lt.
  - intros Heq. cut (Byte.to_N a = Byte.to_N b).
    { intros Hn. apply (inj Some).
      by rewrite <- (Byte.of_to_N a), <- (Byte.of_to_N b), Hn. }
    destruct (N.lt_trichotomy (Byte.to_N a) (Byte.to_N b)) as [Hl|[He|Hg]];
      [|done|].
    + apply N.ltb_lt in Hl. rewrite <- Hlt, Heq, Hlt in Hl.
      apply N.ltb_lt in Hl. lia.
    + apply N.ltb_lt in Hg. rewrite <- Hlt, Heq, Hlt in Hg.
      apply N.ltb_lt in Hg. lia.
Qed.

(** ** Animations on one shader object *)

(** The value of a uniform after a call whose own writes went to pairwise
    distinct locations: what that call wrote, whatever was written before. *)
Lemma uniform_value_own (this : ShaderClass)
    (before W : list (Z * Z * list float)) (j : nat) (w : Z * Z * list float) :
  written (glsl this) = before ++ W →
  NoDup ((λ w, w.1.1) <$> W) →
  W !! j = Some w →
  uniform_value w.1.1 this = Some w.2.
Proof.
  unfold uniform_value. intros -> Hnd Hj.
  rewrite filter_app, (filter_location_unique W j w Hnd Hj).
  by rewrite last_snoc.
Qed.

(** The fields of an object on which [beginAnimation] ran any number of
    times are those the constructor set. *)
Lemma beginAnimation_all_fields `{Host} (effect : Fire)
    (calls : list (Actor * Settings.t * bool)) :
  Forall (λ c, config_valid c.1.2) calls →
  ∃ this,
    beginAnimation_all calls (_init effect) = Some this
    ∧ _uGradient this = uniform_location <$> gradient_uniforms
    ∧ _u3DNoise this = uniform_location "u3DNoise"
    ∧ _uScale this = uniform_location "uScale"
    ∧ _uMovementSpeed this = uniform_location "uMovementSpeed".
Proof.
  intros Hcalls.
  destruct (_init_fields effect) as (_ & _ & Hg & Hn & Hs & Hm).
  destruct (beginAnimation_all_valid calls (_init effect) Hcalls)
    as (this & Hb & Hg' & Hn' & Hs' & Hm' & _); [by rewrite Hg|].
  exists this. by rewrite Hg', Hn', Hs', Hm'.
Qed.

(** The own writes of [beginAnimation] on an object whose fields are those
    the constructor set. *)
Lemma beginAnimation_own_writes `{Host} (actor : Actor) (s : Settings.t)
    (forOpening : bool) (this : ShaderClass) :
  config_valid s →
  _uGradient this = uniform_location <$> gradient_uniforms →
  _u3DNoise this = uniform_location "u3DNoise" →
  _uScale this = uniform_location "uScale" →
  _uMovementSpeed this = uniform_location "uMovementSpeed" →
  ∃ this' c1 c2 c3 c4 c5 noise scale speed,
    beginAnimation actor s forOpening this = Some this'
    ∧ Settings.get_string s "fire-color-1" = Some c1
    ∧ Settings.get_string s "fire-color-2" = Some c2
    ∧ Settings.get_string s "fire-color-3" = Some c3
    ∧ Settings.get_string s "fire-color-4" = Some c4
    ∧ Settings.get_string s "fire-color-5" = Some c5
    ∧ Settings.get_boolean s "flame-3d-noise" = Some noise
    ∧ Settings.get_double s "flame-scale" = Some scale
    ∧ Settings.get_double s "flame-movement-speed" = Some speed
    ∧ written (glsl this')
      = written (Shader_beginAnimation actor s forOpening (glsl this))
        ++ [(uniform_location "uGradient1", 4%Z,
             gradient_values (color_from_string c1).2);
            (uniform_location "uGradient2", 4%Z,
             gradient_values (color_from_string c2).2);
            (uniform_location "uGradient3", 4%Z,
             gradient_values (color_from_string c3).2);
            (uniform_location "uGradient4", 4%Z,
             gradient_values (color_from_string c4).2);
            (uniform_location "uGradient5", 4%Z,
             gradient_values (color_from_string c5).2);
            (uniform_location "u3DNoise", 1%Z,
             [if noise then 1%float else 0%float]);
            (uniform_location "uScale", 1%Z, [scale]);
            (uniform_location "uMovementSpeed", 1%Z, [speed])].
Proof.
  intros (Hc & [noise Hn] & [sc Hs] & [sp Hm]) Hug Hun Hus Hum.
  unfold color_keys in Hc.
  apply Forall_cons in Hc as [[c1 H1] Hc]. apply Forall_cons in Hc as [[c2 H2] Hc].
  apply Forall_cons in Hc as [[c3 H3] Hc]. apply Forall_cons in Hc as [[c4 H4] Hc].
  apply Forall_cons in Hc as [[c5 H5] _].
  eexists _, c1, c2, c3, c4, c5, noise, sc, sp. split.
  { apply (beginAnimation_result actor s forOpening this
             c1 c2 c3 c4 c5 noise sc sp); first [done | by rewrite Hug]. }
  do 8 (split; [assumption|]).
  cbn [glsl written]. unfold own_writes. by rewrite Hug, Hun, Hus, Hum.
Qed.

(** X2: a shader object can be used for animation after animation. With
    the eight uniforms at pairwise distinct locations, after any earlier
    run of [beginAnimation] calls on the object, one more call on a valid
    configuration succeeds and leaves in each of the eight uniforms the
    value of the store passed to this call: nothing of the earlier
    animations shows, whatever the base class wrote. *)
Theorem beginAnimation_overrides_history `{Host} (effect : Fire)
    (calls : list (Actor * Settings.t * bool)) (actor : Actor)
    (s : Settings.t) (forOpening : bool) :
  Forall (λ c, config_valid c.1.2) calls →
  config_valid s →
  NoDup (uniform_location <$> declared_uniforms) →
  ∃ this this',
    beginAnimation_all calls (_init effect) = Some this
    ∧ beginAnimation actor s forOpening this = Some this'
    ∧ Forall2 (λ key nm,
        uniform_value (uniform_location nm) this'
        = (λ str, gradient_values (color_from_string str).2)
            <$> Settings.get_string s key)
        ["fire-color-1"; "fire-color-2"; "fire-color-3"; "fire-color-4";
         "fire-color-5"]
        ["uGradient1"; "uGradient2"; "uGradient3"; "uGradient4";
         "uGradient5"]
    ∧ uniform_value (uniform_location "u3DNoise") this'
      = (λ b : bool, [if b then 1%float else 0%float])
          <$> Settings.get_boolean s "flame-3d-noise"
    ∧ uniform_value (uniform_location "uScale") this'
      = (λ x, [x]) <$> Settings.get_double s "flame-scale"
    ∧ uniform_value (uniform_location "uMovementSpeed") this'
      = (λ x, [x]) <$> Settings.get_double s "flame-movement-speed".
Proof.
  intros Hcalls Hc Hnd.
  destruct (beginAnimation_all_fields effect calls Hcalls)
    as (this & Hrun & Hug & Hun & Hus & Hum).
  destruct (beginAnimation_own_writes actor s forOpening this Hc Hug Hun Hus
              Hum)
    as (this' & c1 & c2 & c3 & c4 & c5 & noise & sc & sp & Hb & H1 & H2 & H3
        & H4 & H5 & Hn & Hs & Hm & Hw).
  exists this, this'. split; [exact Hrun|]. split; [exact Hb|].
  set (W := [_; _; _; _; _; _; _; _]) in Hw.
  assert (HndW : NoDup ((λ w, w.1.1) <$> W)) by exact Hnd.
  pose proof (λ j w, uniform_value_own this' _ W j w Hw HndW) as Hv.
  split; [|split; [|split]].
  - repeat constructor.
    + rewrite H1. exact (Hv 0 _ eq_refl).
    + rewrite H2. exact (Hv 1 _ eq_refl).
    + rewrite H3. exact (Hv 2 _ eq_refl).
    + rewrite H4. exact (Hv 3 _ eq_refl).
    + rewrite H5. exact (Hv 4 _ eq_refl).
  - rewrite Hn. exact (Hv 5 _ eq_refl).
  - rewrite Hs. exact (Hv 6 _ eq_refl).
  - rewrite Hm. exact (Hv 7 _ eq_refl).
Qed.

(** Two animations on one object: the second, with the movement speed
    changed to 0.2, leaves 0.2 in the uniform. *)
Lemma beginAnimation_overrides_history_witness :
  config_valid example_store
  ∧ NoDup (@uniform_location example_host <$> declared_uniforms)
  ∧ ∃ s2 this this',
      Settings.exec (Settings.set_double "flame-movement-speed" 0.2)
        example_store = Some s2
      ∧ @beginAnimation_all example_host [(tt, example_store, true)]
          (@_init example_host (mkFire None)) = Some this
      ∧ uniform_value (@uniform_location example_host "uMovementSpeed") this
        = Some [0.5%float]
      ∧ @beginAnimation example_host tt s2 false this = Some this'
      ∧ uniform_value (@uniform_location example_host "uMovementSpeed") this'
        = Some [0.2%float].
Proof.
  assert (Hc : config_valid example_store).
  { unfold config_valid, color_keys.
    repeat split; repeat constructor; vm_compute; by eexists. }
  assert (Hnd : NoDup (@uniform_location example_host <$> declared_uniforms)).
  { apply (bool_decide_unpack _). vm_compute. exact I. }
  split; [exact Hc|]. split; [exact Hnd|].
  set (s2 := Settings.mk example_schema
               (<["flame-movement-speed" := Settings.VDouble 0.2]> ∅)
               [Settings.WSet "flame-movement-speed" (Settings.VDouble 0.2)]).
  assert (Hc2 : config_valid s2).
  { unfold config_valid, color_keys.
    repeat split; repeat constructor; vm_compute; by eexists. }
  destruct (@beginAnimation_overrides_history example_host (mkFire None)
              [(tt, example_store, true)] tt s2 false)
    as (this & this' & Hrun & Hb & _ & _ & _ & Hv); [|exact Hc2|exact Hnd|].
  { constructor; [exact Hc|constructor]. }
  exists s2, this, this'. split; [vm_compute; reflexivity|].
  split; [exact Hrun|]. split; [|split; [exact Hb|exact Hv]].
  vm_compute in Hrun. injection Hrun as <-. vm_compute. reflexivity.
Defined.

Lemma get_string_agree (s1 s2 : Settings.t) key :
  Settings.get_value s2 key = Settings.get_value s1 key →
  Settings.get_string s2 key = Settings.get_string s1 key.
Proof. unfold Settings.get_string. by intros ->. Qed.

Lemma get_double_agree (s1 s2 : Settings.t) key :
  Settings.get_value s2 key = Settings.get_value s1 key →
  Settings.get_double s2 key = Settings.get_double s1 key.
Proof. unfold Settings.get_double. by intros ->. Qed.

Lemma get_boolean_agree (s1 s2 : Settings.t) key :
  Settings.get_value s2 key = Settings.get_value s1 key →
  Settings.get_boolean s2 key = Settings.get_boolean s1 key.
Proof. unfold Settings.get_boolean. by intros ->. Qed.

(** A store that reads as a valid one at the eight keys is valid. *)
Ltac in_list :=
  repeat first [apply list_elem_of_here | apply list_elem_of_further].

Lemma config_valid_agree (s1 s2 : Settings.t) :
  (∀ key, key ∈ color_keys
              ++ ["flame-3d-noise"; "flame-scale"; "flame-movement-speed"] →
     Settings.get_value s2 key = Settings.get_value s1 key) →
  config_valid s1 → config_valid s2.
Proof.
  intros Hag (Hc & Hn & Hs & Hm). unfold config_valid.
  rewrite (get_boolean_agree s1 s2), (get_double_agree s1 s2 "flame-scale"),
    (get_double_agree s1 s2 "flame-movement-speed")
    by (apply Hag; in_list).
  split; [|done].
  apply Forall_forall. intros key Hin.
  rewrite (get_string_agree s1 s2) by (apply Hag, elem_of_app; by left).
  by apply (proj1 (Forall_forall _ _) Hc).
Qed.

(** X3: [beginAnimation] looks at eight keys of the store and at nothing
    else. On two stores that read alike at [fire-color-1] to
    [fire-color-5], [flame-3d-noise], [flame-scale] and
    [flame-movement-speed], the first of them valid, both calls on a new
    object succeed and make the same eight writes after those of the base
    class, however the stores differ at other keys. *)
Theorem beginAnimation_reads_only_its_keys `{Host} (effect : Fire)
    (actor : Actor) (s1 s2 : Settings.t) (forOpening : bool) :
  config_valid s1 →
  (∀ key,
     key ∈ ["fire-color-1"; "fire-color-2"; "fire-color-3"; "fire-color-4";
            "fire-color-5"; "flame-3d-noise"; "flame-scale";
            "flame-movement-speed"] →
     Settings.get_value s2 key = Settings.get_value s1 key) →
  ∃ this1 this2 W,
    beginAnimation actor s1 forOpening (_init effect) = Some this1
    ∧ beginAnimation actor s2 forOpening (_init effect) = Some this2
    ∧ written (glsl this1)
      = written (Shader_beginAnimation actor s1 forOpening
                   (glsl (_init effect))) ++ W
    ∧ written (glsl this2)
      = written (Shader_beginAnimation actor s2 forOpening
                   (glsl (_init effect))) ++ W
    ∧ length W = 8.
Proof.
  intros Hc Hag.
  destruct (_init_fields effect) as (_ & _ & Hug & Hun & Hus & Hum).
  destruct (beginAnimation_own_writes actor s1 forOpening (_init effect) Hc
              Hug Hun Hus Hum)
    as (this1 & c1 & c2 & c3 & c4 & c5 & noise & sc & sp & Hb & H1 & H2 & H3
        & H4 & H5 & Hn & Hs & Hm & Hw).
  destruct (beginAnimation_own_writes actor s2 forOpening (_init effect)
              (config_valid_agree s1 s2 Hag Hc) Hug Hun Hus Hum)
    as (this2 & c1' & c2' & c3' & c4' & c5' & noise' & sc' & sp' & Hb' & H1'
        & H2' & H3' & H4' & H5' & Hn' & Hs' & Hm' & Hw').
  rewrite (get_string_agree s1 s2), H1 in H1' by (apply Hag; in_list).
  rewrite (get_string_agree s1 s2), H2 in H2' by (apply Hag; in_list).
  rewrite (get_string_agree s1 s2), H3 in H3' by (apply Hag; in_list).
  rewrite (get_string_agree s1 s2), H4 in H4' by (apply Hag; in_list).
  rewrite (get_string_agree s1 s2), H5 in H5' by (apply Hag; in_list).
  rewrite (get_boolean_agree s1 s2), Hn in Hn' by (apply Hag; in_list).
  rewrite (get_double_agree s1 s2), Hs in Hs' by (apply Hag; in_list).
  rewrite (get_double_agree s1 s2), Hm in Hm' by (apply Hag; in_list).
  simplify_eq. eexists this1, this2, _.
  split; [exact Hb|]. split; [exact Hb'|]. split; [exact Hw|].
  split; [exact Hw'|reflexivity].
Qed.

(** Two stores that differ at [fire-animation-time] only. *)
Lemma beginAnimation_reads_only_its_keys_witness :
  config_valid example_store
  ∧ Settings.get_value example_store "fire-animation-time"
    ≠ Settings.get_value
        (Settings.mk (<["fire-animation-time" := Settings.VInt 300]>
                        example_schema) ∅ []) "fire-animation-time"
  ∧ ∃ this1 this2,
      @beginAnimation example_host tt example_store true
        (@_init example_host (mkFire None)) = Some this1
      ∧ @beginAnimation example_host tt
          (Settings.mk (<["fire-animation-time" := Settings.VInt 300]>
                          example_schema) ∅ []) true
          (@_init example_host (mkFire None)) = Some this2
      ∧ written (glsl this1) = written (glsl this2).
Proof.
  assert (Hc : config_valid example_store).
  { unfold config_valid, color_keys.
    repeat split; repeat constructor; vm_compute; by eexists. }
  split; [exact Hc|]. split; [vm_compute; discriminate|].
  destruct (@beginAnimation_reads_only_its_keys example_host (mkFire None) tt
              example_store
              (Settings.mk (<["fire-animation-time" := Settings.VInt 300]>
                              example_schema) ∅ []) true Hc)
    as (this1 & this2 & W & Hb1 & Hb2 & Hw1 & Hw2 & _).
  { intros key Hin. rewrite !elem_of_cons in Hin.
    destruct Hin as [->|[->|[->|[->|[->|[->|[->|[->|Hin]]]]]]]];
      [vm_compute; reflexivity.. | by apply elem_of_nil in Hin]. }
  exists this1, this2. split; [exact Hb1|]. split; [exact Hb2|].
  rewrite Hw1, Hw2. reflexivity.
Defined.

(** ** How the two handlers compose *)

(** The writes of a preset cover those of a preset applied before. *)
Lemma preset_inserts_cover (p q : Preset) (u : gmap string Settings.value) :
  <["fire-color-5" := Settings.VString (color5 q)]>
  (<["fire-color-4" := Settings.VString (color4 q)]>
  (<["fire-color-3" := Settings.VString (color3 q)]>
  (<["fire-color-2" := Settings.VString (color2 q)]>
  (<["fire-color-1" := Settings.VString (color1 q)]>
  (<["flame-scale" := Settings.VDouble (scale q)]>
  (<["flame-movement-speed" := Settings.VDouble (speed q)]>
  (<["fire-color-5" := Settings.VString (color5 p)]>
  (<["fire-color-4" := Settings.VString (color4 p)]>
  (<["fire-color-3" := Settings.VString (color3 p)]>
  (<["fire-color-2" := Settings.VString (color2 p)]>
  (<["fire-color-1" := Settings.VString (color1 p)]>
  (<["flame-scale" := Settings.VDouble (scale p)]>
  (<["flame-movement-speed" := Settings.VDouble (speed p)]> u)))))))))))))
  = <["fire-color-5" := Settings.VString (color5 q)]>
    (<["fire-color-4" := Settings.VString (color4 q)]>
    (<["fire-color-3" := Settings.VString (color3 q)]>
    (<["fire-color-2" := Settings.VString (color2 q)]>
    (<["fire-color-1" := Settings.VString (color1 q)]>
    (<["flame-scale" := Settings.VDouble (scale q)]>
    (<["flame-movement-speed" := Settings.VDouble (speed q)]> u)))))).
Proof.
  apply map_eq. intros key. rewrite !lookup_insert.
  repeat (case_decide; [done|]). done.
Qed.

(** X4: a preset replaces a preset. Loading a preset [p] and then a preset
    [q] leaves the store with the same schema and the same written values
    as loading [q] alone, so that every key reads alike; nothing of [p] is
    left. Fourteen write calls were made on the way. With [q] equal to [p]:
    loading a preset twice is loading it once. *)
Theorem preset_replaces_preset (s : Settings.t) (p q : Preset) :
  preset_keys_declared s →
  ∃ s1 s2 s3,
    Settings.exec (load_preset p) s = Some s1
    ∧ Settings.exec (load_preset q) s1 = Some s2
    ∧ Settings.exec (load_preset q) s = Some s3
    ∧ Settings.schema s2 = Settings.schema s3
    ∧ Settings.user s2 = Settings.user s3
    ∧ (∀ key, Settings.get_value s2 key = Settings.get_value s3 key)
    ∧ length (Settings.journal s2) = length (Settings.journal s) + 14.
Proof.
  intros Hk. eexists _, _, _.
  split; [by apply load_preset_exec|].
  split; [by apply load_preset_exec|].
  split; [by apply load_preset_exec|].
  cbn [Settings.schema Settings.user Settings.journal].
  pose proof (preset_inserts_cover p q (Settings.user s)) as Hu.
  split; [done|]. split; [exact Hu|]. split.
  - intros key. apply get_value_agree; [done|].
    cbn [Settings.user]. by rewrite Hu.
  - rewrite !length_app. simpl. lia.
Qed.

(** "Hell Fire" after "Cold Breeze" on the example store. *)
Lemma preset_replaces_preset_witness :
  preset_keys_declared example_store
  ∧ ∃ p q s1 s2 s3,
      @presets example_host !! 3 = Some p
      ∧ @presets example_host !! 1 = Some q
      ∧ Settings.exec (load_preset p) example_store = Some s1
      ∧ Settings.exec (load_preset q) s1 = Some s2
      ∧ Settings.exec (load_preset q) example_store = Some s3
      ∧ Settings.user s2 = Settings.user s3.
Proof.
  assert (Hk : preset_keys_declared example_store) by keys_declared.
  split; [exact Hk|].
  destruct (@presets example_host !! 3) as [p|] eqn:Hp; [|discriminate].
  destruct (@presets example_host !! 1) as [q|] eqn:Hq; [|discriminate].
  destruct (preset_replaces_preset example_store p q Hk)
    as (s1 & s2 & s3 & H1 & H2 & H3 & _ & Hu & _).
  exists p, q, s1, s2, s3. split; [reflexivity|]. split; [reflexivity|].
  split; [exact H1|]. split; [exact H2|]. split; [exact H3|exact Hu].
Defined.

(** X5: the reset handler touches the five colour keys only. Every other
    key, [flame-scale], [flame-movement-speed] and [flame-3d-noise] among
    them, keeps the value written under it and reads as before; the schema
    is not touched. *)
Theorem reset_touches_colours_only (s : Settings.t) :
  color_keys_declared s →
  ∃ s',
    Settings.exec reset_fire_colors s = Some s'
    ∧ Settings.schema s' = Settings.schema s
    ∧ (∀ key,
         key ∉ ["fire-color-1"; "fire-color-2"; "fire-color-3";
                "fire-color-4"; "fire-color-5"] →
         Settings.user s' !! key = Settings.user s !! key
         ∧ Settings.get_value s' key = Settings.get_value s key).
Proof.
  intros Hk. eexists. split; [by apply reset_fire_colors_exec|].
  split; [done|]. intros key Hn. rewrite !not_elem_of_cons in Hn.
  destruct Hn as (? & ? & ? & ? & ? & _).
  assert (Hu : delete "fire-color-5" (delete "fire-color-4"
                 (delete "fire-color-3" (delete "fire-color-2"
                 (delete "fire-color-1" (Settings.user s))))) !! key
               = Settings.user s !! key).
  { by rewrite !lookup_delete_ne. }
  split; [exact Hu|]. by apply get_value_agree.
Qed.

(** A reset on a store where the scale and the noise were changed. *)
Lemma reset_touches_colours_only_witness :
  color_keys_declared example_store_noise
  ∧ ∃ s',
      Settings.exec reset_fire_colors example_store_noise = Some s'
      ∧ Settings.get_value s' "flame-3d-noise"
        = Some (Settings.VBoolean true).
Proof.
  assert (Hk : color_keys_declared example_store_noise) by keys_declared.
  split; [exact Hk|].
  destruct (reset_touches_colours_only example_store_noise Hk) as (s' & H1 & _ & Hf).
  exists s'. split; [exact H1|].
  destruct (Hf "flame-3d-noise") as [_ ->]; [|vm_compute; reflexivity].
  rewrite !not_elem_of_cons.
  do 5 (split; [discriminate|]). apply not_elem_of_nil.
Defined.

(** X6: a reset after a preset takes back the colours only. After the
    handler of a preset and then the reset handler, the five colours read
    as their defaults, while [flame-scale] and [flame-movement-speed] still
    read as the preset set them. *)
Theorem reset_after_preset_keeps_scale_and_speed (s : Settings.t)
    (p : Preset) :
  preset_keys_declared s →
  ∃ s1 s2,
    Settings.exec (load_preset p) s = Some s1
    ∧ Settings.exec reset_fire_colors s1 = Some s2
    ∧ Settings.get_double s2 "flame-scale" = Some (scale p)
    ∧ Settings.get_double s2 "flame-movement-speed" = Some (speed p)
    ∧ Forall (λ key,
        is_Some (Settings.default_of s key)
        ∧ Settings.get_value s2 key = Settings.default_of s key)
        ["fire-color-1"; "fire-color-2"; "fire-color-3"; "fire-color-4";
         "fire-color-5"].
Proof.
  intros Hk. eexists _, _.
  split; [by apply load_preset_exec|].
  assert (Hc : color_keys_declared s) by apply Hk.
  split; [by apply (reset_fire_colors_exec (Settings.mk _ _ _))|].
  destruct Hk as (Hs & Hsc & _). apply color_keys_declared_each in Hc.
  destruct Hc as (H1 & H2 & H3 & H4 & H5). destruct s as [sch u j].
  unfold Settings.declares, Settings.default_of, Settings.get_double,
    Settings.get_value in *.
  cbn [Settings.schema Settings.user] in *.
  destruct (sch !! "flame-scale") as [d1|] eqn:E6; [|discriminate].
  destruct (sch !! "flame-movement-speed") as [d2|] eqn:E7; [|discriminate].
  destruct (sch !! "fire-color-1") as [e1|] eqn:E1; [|discriminate].
  destruct (sch !! "fire-color-2") as [e2|] eqn:E2; [|discriminate].
  destruct (sch !! "fire-color-3") as [e3|] eqn:E3; [|discriminate].
  destruct (sch !! "fire-color-4") as [e4|] eqn:E4; [|discriminate].
  destruct (sch !! "fire-color-5") as [e5|] eqn:E5; [|discriminate].
  split; [by simplify_map_eq|]. split; [by simplify_map_eq|].
  apply Forall_cons. split; [rewrite E1; split; [by eexists|by simplify_map_eq]|].
  apply Forall_cons. split; [rewrite E2; split; [by eexists|by simplify_map_eq]|].
  apply Forall_cons. split; [rewrite E3; split; [by eexists|by simplify_map_eq]|].
  apply Forall_cons. split; [rewrite E4; split; [by eexists|by simplify_map_eq]|].
  apply Forall_cons. split; [rewrite E5; split; [by eexists|by simplify_map_eq]|].
  apply Forall_nil_2.
Qed.

(** "Hell Fire", then a reset. *)
Lemma reset_after_preset_keeps_scale_and_speed_witness :
  preset_keys_declared example_store
  ∧ ∃ q s1 s2,
      @presets example_host !! 1 = Some q
      ∧ Settings.exec (load_preset q) example_store = Some s1
      ∧ Settings.exec reset_fire_colors s1 = Some s2
      ∧ Settings.get_double s2 "flame-scale" = Some 1.5%float
      ∧ Settings.get_value s2 "fire-color-4"
        = Some (Settings.VString "rgba(255, 166, 25, 1)").
Proof.
  assert (Hk : preset_keys_declared example_store) by keys_declared.
  split; [exact Hk|].
  destruct (@presets example_host !! 1) as [q|] eqn:Hq; [|discriminate].
  destruct (reset_after_preset_keeps_scale_and_speed example_store q Hk)
    as (s1 & s2 & H1 & H2 & H3 & _ & H5).
  exists q, s1, s2. split; [reflexivity|]. split; [exact H1|].
  split; [exact H2|]. vm_compute in Hq. injection Hq as <-.
  split; [exact H3|].
  apply Forall_cons in H5 as [_ H5]. apply Forall_cons in H5 as [_ H5].
  apply Forall_cons in H5 as [_ H5]. apply Forall_cons in H5 as [[_ H5] _].
  rewrite H5. vm_compute. reflexivity.
Defined.

(** X7: resetting twice is resetting once. A second run of the reset
    handler makes its five reset calls and changes neither the schema nor
    any written value, so that every key reads as after the first run. *)
Theorem reset_twice_is_reset_once (s : Settings.t) :
  color_keys_declared s →
  ∃ s1 s2,
    Settings.exec reset_fire_colors s = Some s1
    ∧ Settings.exec reset_fire_colors s1 = Some s2
    ∧ Settings.schema s2 = Settings.schema s1
    ∧ Settings.user s2 = Settings.user s1
    ∧ (∀ key, Settings.get_value s2 key = Settings.get_value s1 key)
    ∧ length (Settings.journal s2) = length (Settings.journal s1) + 5.
Proof.
  intros Hk. eexists _, _.
  split; [by apply reset_fire_colors_exec|].
  split; [by apply (reset_fire_colors_exec (Settings.mk _ _ _))|].
  cbn [Settings.schema Settings.user Settings.journal].
  assert (Hu :
    delete "fire-color-5" (delete "fire-color-4" (delete "fire-color-3"
      (delete "fire-color-2" (delete "fire-color-1"
      (delete "fire-color-5" (delete "fire-color-4" (delete "fire-color-3"
        (delete "fire-color-2" (delete "fire-color-1"
          (Settings.user s))))))))))
    = delete "fire-color-5" (delete "fire-color-4" (delete "fire-color-3"
        (delete "fire-color-2" (delete "fire-color-1" (Settings.user s)))))).
  { apply map_eq. intros key. rewrite !lookup_delete.
    repeat (case_decide; [done|]). done. }
  split; [done|]. split; [exact Hu|]. split.
  - intros key. apply get_value_agree; [done|]. cbn [Settings.user].
    by rewrite Hu.
  - rewrite !length_app. simpl. lia.
Qed.

(** Two resets on a store where the first colour was changed. *)
Lemma reset_twice_is_reset_once_witness :
  color_keys_declared example_store_noise
  ∧ ∃ s1 s2,
      Settings.exec reset_fire_colors example_store_noise = Some s1
      ∧ Settings.exec reset_fire_colors s1 = Some s2
      ∧ Settings.user s2 = Settings.user s1.
Proof.
  assert (Hk : color_keys_declared example_store_noise) by keys_declared.
  split; [exact Hk|].
  destruct (reset_twice_is_reset_once example_store_noise Hk)
    as (s1 & s2 & H1 & H2 & _ & Hu & _).
  exists s1, s2. split; [exact H1|]. split; [exact H2|exact Hu].
Defined.

(** ** From the preferences to the next animation *)

(** X8: a preset chosen in the preferences shows in the next animation.
    On a store that declares the preset keys and on which [flame-3d-noise]
    can be read, the handler of a preset succeeds, and [beginAnimation] on
    a new shader object with the store it leaves succeeds and writes, after
    the writes of the base class, the five colours of the preset as parsed
    by [Clutter.Color.from_string], the 3D noise flag as it was before the
    preset, and the scale and the movement speed of the preset. *)
Theorem preset_shows_in_next_animation `{Host} (s : Settings.t) (p : Preset)
    (effect : Fire) (actor : Actor) (forOpening : bool) :
  preset_keys_declared s →
  is_Some (Settings.get_boolean s "flame-3d-noise") →
  ∃ s' this' noise,
    Settings.exec (load_preset p) s = Some s'
    ∧ Settings.get_boolean s "flame-3d-noise" = Some noise
    ∧ beginAnimation actor s' forOpening (_init effect) = Some this'
    ∧ written (glsl this')
      = written (Shader_beginAnimation actor s' forOpening
                   (glsl (_init effect)))
        ++ [(uniform_location "uGradient1", 4%Z,
             gradient_values (color_from_string (color1 p)).2);
            (uniform_location "uGradient2", 4%Z,
             gradient_values (color_from_string (color2 p)).2);
            (uniform_location "uGradient3", 4%Z,
             gradient_values (color_from_string (color3 p)).2);
            (uniform_location "uGradient4", 4%Z,
             gradient_values (color_from_string (color4 p)).2);
            (uniform_location "uGradient5", 4%Z,
             gradient_values (color_from_string (color5 p)).2);
            (uniform_location "u3DNoise", 1%Z,
             [if noise then 1%float else 0%float]);
            (uniform_location "uScale", 1%Z, [scale p]);
            (uniform_location "uMovementSpeed", 1%Z, [speed p])].
Proof.
  intros Hk [noise Hn].
  destruct (load_preset_reads s p Hk)
    as (s' & Hex & Hr1 & Hr2 & Hr3 & Hr4 & Hr5 & Hr6 & Hr7).
  assert (Hn' : Settings.get_boolean s' "flame-3d-noise" = Some noise).
  { rewrite <- Hn. apply get_boolean_agree.
    rewrite (load_preset_exec s p Hk) in Hex. injection Hex as <-.
    apply get_value_agree; [done|]. cbn [Settings.user].
    by rewrite !lookup_insert_ne. }
  assert (Hc : config_valid s').
  { unfold config_valid, color_keys. rewrite Hn', Hr1, Hr2.
    split; [|by repeat split].
    repeat constructor; by eexists. }
  destruct (_init_fields effect) as (_ & _ & Hug & Hun & Hus & Hum).
  destruct (beginAnimation_own_writes actor s' forOpening (_init effect) Hc
              Hug Hun Hus Hum)
    as (this' & c1 & c2 & c3 & c4 & c5 & noise' & sc & sp & Hb & H1 & H2 & H3
        & H4 & H5 & Hn'' & Hs & Hm & Hw).
  simplify_eq. by exists s', this', noise.
Qed.

(** "Hell Fire" on the example store, then an animation. *)
Lemma preset_shows_in_next_animation_witness :
  preset_keys_declared example_store
  ∧ is_Some (Settings.get_boolean example_store "flame-3d-noise")
  ∧ ∃ q s' this',
      @presets example_host !! 1 = Some q
      ∧ Settings.exec (load_preset q) example_store = Some s'
      ∧ @beginAnimation example_host tt s' true
          (@_init example_host (mkFire None)) = Some this'
      ∧ last (written (glsl this')) = Some (9%Z, 1%Z, [0.2%float]).
Proof.
  assert (Hk : preset_keys_declared example_store) by keys_declared.
  assert (Hn : is_Some (Settings.get_boolean example_store "flame-3d-noise")).
  { vm_compute. by eexists. }
  split; [exact Hk|]. split; [exact Hn|].
  destruct (@presets example_host !! 1) as [q|] eqn:Hq; [|discriminate].
  destruct (@preset_shows_in_next_animation example_host example_store q
              (mkFire None) tt true Hk Hn)
    as (s' & this' & noise & H1 & _ & H3 & H4).
  exists q, s', this'. split; [reflexivity|]. split; [exact H1|].
  split; [exact H3|]. rewrite H4, last_app.
  vm_compute in Hq. injection Hq as <-. reflexivity.
Defined.

(** ** The page under any sequence of events *)

Lemma preset_keys_declared_schema (s s' : Settings.t) :
  Settings.schema s' = Settings.schema s →
  preset_keys_declared s → preset_keys_declared s'.
Proof.
  intros Hs (H1 & H2 & H3). unfold preset_keys_declared, color_keys_declared.
  split; [by apply (declares_same_schema s)|].
  split; [by apply (declares_same_schema s)|].
  eapply Forall_impl; [exact H3|]. intros key. by apply declares_same_schema.
Qed.

(** One event on a ready page: it succeeds and leaves the page ready, with
    the same attachments, connections and schema. *)
Lemma page_ready_step `{Host} (e : ui_event) (d : Dialog) :
  page_ready d → in_menu e →
  ∃ d',
    run_ui_event e d = Some d'
    ∧ page_ready d'
    ∧ attached d' = attached d
    ∧ connections d' = connections d
    ∧ Settings.schema (settings d') = Settings.schema (settings d)
    ∧ length (Settings.journal (settings d))
      ≤ length (Settings.journal (settings d')).
Proof.
  intros (Hr & Hc & Hk & Hm & Hg) He. destruct e as [| |i].
  - exists (fire_prefs_realize presets "fire-prefs" d).
    destruct (fire_prefs_realize_fields presets "fire-prefs" d)
      as (Hs' & Ht' & Hp' & Hm' & Hg' & _).
    assert (Hmm : menu_models (fire_prefs_realize presets "fire-prefs" d)
                  = menu_models d).
    { rewrite Hm'. by apply insert_id. }
    assert (Hgg : actions <$> action_groups
                    (fire_prefs_realize presets "fire-prefs" d)
                  = actions <$> action_groups d).
    { rewrite Hg', fmap_insert. by apply insert_id. }
    split; [by apply realize_getPreferences|].
    split; [|split; [|split; [|split]]].
    + unfold page_ready, handlers. by rewrite Hp', Hs', Hmm, Hgg, Ht'.
    + unfold attached. by rewrite Hmm, Hgg.
    + exact Hp'.
    + by rewrite Hs'.
    + by rewrite Hs'.
  - destruct (settings d) as [sch u j] eqn:Hsd.
    exists (with_settings d
              (Settings.mk sch
                 (delete "fire-color-5" (delete "fire-color-4"
                   (delete "fire-color-3" (delete "fire-color-2"
                   (delete "fire-color-1" u)))))
                 (j ++ (Settings.WReset <$> color_keys)))).
    split.
    { cbn [run_ui_event]. unfold click_reset, emit. rewrite Hc.
      cbn [run_callbacks run_callback mbind option_bind]. rewrite Hsd.
      rewrite (reset_fire_colors_exec (Settings.mk sch u j)); [done|].
      apply Hk. }
    split; [|split; [done|split; [done|split; [done|]]]].
    + unfold page_ready. cbn [with_settings]. do 2 (split; [done|]).
      split; [|by split]. by apply (preset_keys_declared_schema _ _ eq_refl).
    + cbn [with_settings settings Settings.journal]. rewrite length_app. lia.
  - cbn [in_menu] in He. apply lookup_lt_is_Some_2 in He as [p Hp].
    rewrite lookup_fmap in Hg.
    destruct (action_groups d !! (toplevel d, groupName)) as [g|] eqn:Hgd;
      [|discriminate].
    cbn [fmap option_fmap option_map] in Hg. apply (inj Some) in Hg.
    pose proof (forEach_add_preset_hit presets 0 Menu_new (mkGroup 0 ∅) i p
                  Hp) as Hhit.
    change (0 + i) with i in Hhit.
    destruct (settings d) as [sch u j] eqn:Hsd.
    pose proof (load_preset_exec (Settings.mk sch u j) p Hk) as Hex.
    eexists. split.
    { cbn [run_ui_event]. unfold activate_action. rewrite Hgd.
      cbn [mbind option_bind]. rewrite Hg, Hhit.
      cbn [mbind option_bind activate action_of]. rewrite Hsd, Hex.
      reflexivity. }
    split; [|split; [done|split; [done|split; [done|]]]].
    + unfold page_ready, handlers.
      cbn [with_settings connections settings menu_models action_groups
           toplevel].
      split; [exact Hr|]. split; [exact Hc|].
      split; [by apply (preset_keys_declared_schema _ _ eq_refl Hk)|].
      split; [exact Hm|].
      rewrite lookup_fmap, Hgd. cbn [fmap option_fmap option_map].
      by rewrite Hg.
    + cbn [with_settings settings Settings.journal]. rewrite length_app. lia.
Qed.

Lemma page_ready_run `{Host} (events : list ui_event) (d : Dialog) :
  page_ready d → Forall in_menu events →
  ∃ d',
    run_ui_events events d = Some d'
    ∧ page_ready d'
    ∧ attached d' = attached d
    ∧ connections d' = connections d
    ∧ Settings.schema (settings d') = Settings.schema (settings d)
    ∧ length (Settings.journal (settings d))
      ≤ length (Settings.journal (settings d')).
Proof.
  intros Hd Hev. revert d Hd.
  induction Hev as [|e events He _ IH]; intros d Hd.
  - by exists d.
  - destruct (page_ready_step e d Hd He) as (d1 & H1 & Hr1 & Ha1 & Hc1 & Hs1 & Hj1).
    destruct (IH d1 Hr1) as (d2 & H2 & Hr2 & Ha2 & Hc2 & Hs2 & Hj2).
    exists d2. cbn [run_ui_events]. rewrite H1. cbn [mbind option_bind].
    rewrite H2, Ha2, Ha1, Hc2, Hc1, Hs2, Hs1.
    do 5 (split; [done|]). lia.
Qed.

(** The page is ready after [getPreferences] and the first realize
    event. *)
Lemma page_ready_after_realize `{Host} (d : Dialog) :
  preset_keys_declared (settings d) →
  handlers "fire-prefs" "realize" d = [] →
  handlers "reset-fire-colors" "clicked" d = [] →
  realize (getPreferences d).2
  = Some (fire_prefs_realize presets "fire-prefs" (getPreferences d).2)
  ∧ page_ready (fire_prefs_realize presets "fire-prefs" (getPreferences d).2).
Proof.
  intros Hk Hr Hc.
  destruct (getPreferences_handlers d) as [Hr' Hc'].
  rewrite Hr in Hr'. rewrite Hc in Hc'.
  destruct (getPreferences_connects d) as (_ & Hs0 & _).
  revert Hr' Hc' Hs0. generalize (getPreferences d).2. intros d0 Hr' Hc' Hs0.
  split; [by apply realize_getPreferences|].
  destruct (fire_prefs_realize_fields presets "fire-prefs" d0)
    as (Hs & Ht & Hp & Hm & Hg & _).
  unfold page_ready, handlers. rewrite Hp, Hs, Hm, Hg, Ht, Hs0, fmap_insert.
  split; [exact Hr'|]. split; [exact Hc'|]. split; [exact Hk|].
  by rewrite !lookup_insert_eq.
Qed.

(** X9: the page survives whatever the user does on it. On a page built
    by [getPreferences] over a store that declares the preset keys, and
    realized, no sequence of further realize events, clicks on the reset
    button and choices of menu items fails: each event finds its handler or
    its action. After the sequence the menu and the actions attached are
    those of the first realize event, the connections are the same, the
    schema of the store is the same, and no write call was dropped from
    the journal. *)
Theorem page_survives_events `{Host} (d : Dialog) (events : list ui_event) :
  preset_keys_declared (settings d) →
  handlers "fire-prefs" "realize" d = [] →
  handlers "reset-fire-colors" "clicked" d = [] →
  Forall in_menu events →
  ∃ d1 dn,
    realize (getPreferences d).2 = Some d1
    ∧ run_ui_events events d1 = Some dn
    ∧ attached dn = attached d1
    ∧ connections dn = connections d1
    ∧ Settings.schema (settings dn) = Settings.schema (settings d)
    ∧ length (Settings.journal (settings d))
      ≤ length (Settings.journal (settings dn)).
Proof.
  intros Hk Hr Hc Hev.
  destruct (page_ready_after_realize d Hk Hr Hc) as [H1 Hready].
  destruct (page_ready_run events _ Hready Hev)
    as (dn & Hn & _ & Ha & Hcn & Hs & Hj).
  eexists _, dn. split; [exact H1|]. split; [exact Hn|].
  split; [exact Ha|]. split; [exact Hcn|].
  destruct (fire_prefs_realize_fields presets "fire-prefs" (getPreferences d).2)
    as (Hs1 & _).
  destruct (getPreferences_connects d) as (_ & Hs0 & _).
  rewrite Hs1, Hs0 in Hs, Hj. by split.
Qed.

(** A preset, a reset, a second realize event and two more presets. *)
Lemma page_survives_events_witness :
  preset_keys_declared (settings example_dialog)
  ∧ handlers "fire-prefs" "realize" example_dialog = []
  ∧ handlers "reset-fire-colors" "clicked" example_dialog = []
  ∧ ∃ d1 dn,
      @realize example_host (getPreferences example_dialog).2 = Some d1
      ∧ @run_ui_events example_host
          [ChoosePreset 1; ClickReset; Realize; ChoosePreset 4;
           ChoosePreset 0] d1 = Some dn
      ∧ attached dn = attached d1.
Proof.
  assert (Hk : preset_keys_declared (settings example_dialog))
    by keys_declared.
  split; [exact Hk|]. split; [reflexivity|]. split; [reflexivity|].
  destruct (@page_survives_events example_host example_dialog
              [ChoosePreset 1; ClickReset; Realize; ChoosePreset 4;
               ChoosePreset 0] Hk eq_refl eq_refl)
    as (d1 & dn & H1 & Hn & Ha & _).
  { repeat constructor. }
  exists d1, dn. split; [exact H1|]. split; [exact Hn|exact Ha].
Defined.

(** X10: realize events never write to the store. After [getPreferences]
    and any number of realize events the store is the one the dialog had:
    same schema, same written values, no write call journalled. *)
Theorem realize_never_writes_store `{Host} (d : Dialog) (k : nat) :
  handlers "fire-prefs" "realize" d = [] →
  ∃ dk,
    realize_times k (getPreferences d).2 = Some dk
    ∧ settings dk = settings d
    ∧ bindings dk = bindings (getPreferences d).2
    ∧ connections dk = connections (getPreferences d).2.
Proof.
  intros Hr. destruct k as [|k].
  - by exists (getPreferences d).2.
  - destruct (getPreferences_handlers d) as [Hr' _]. rewrite Hr in Hr'.
    destruct (realize_times_S (getPreferences d).2 k Hr')
      as (dk & Hk & Hc & _ & Hs & _).
    exists dk. split; [exact Hk|]. split; [by rewrite Hs|]. split; [|exact Hc].
    clear Hc Hs. revert dk Hk. generalize (S k). revert Hr'.
    generalize (getPreferences d).2. intros d0 Hr' n.
    revert d0 Hr'. induction n as [|n IH]; intros d0 Hr' dk Hk.
    + by injection Hk as <-.
    + cbn [realize_times] in Hk. rewrite (realize_getPreferences d0 Hr') in Hk.
      cbn [mbind option_bind] in Hk.
      assert (Hr1 : handlers "fire-prefs" "realize"
                      (fire_prefs_realize presets "fire-prefs" d0)
                    = [] ++ [CreateFirePresets]).
      { destruct (fire_prefs_realize_fields presets "fire-prefs" d0)
          as (_ & _ & Hp & _). unfold handlers. by rewrite Hp. }
      rewrite (IH _ Hr1 dk Hk).
      unfold fire_prefs_realize, SimpleActionGroup_new.
      by destruct (forEach add_preset presets 0 _).
Qed.

(** Four realize events on the example dialog. *)
Lemma realize_never_writes_store_witness :
  handlers "fire-prefs" "realize" example_dialog = []
  ∧ ∃ d4,
      @realize_times example_host 4 (getPreferences example_dialog).2
      = Some d4
      ∧ settings d4 = example_store.
Proof.
  split; [reflexivity|].
  destruct (@realize_never_writes_store example_host example_dialog 4 eq_refl)
    as (d4 & H4 & Hs & _).
  exists d4. split; [exact H4|exact Hs].
Defined.

(** ** Bound widgets *)

Lemma bindings_bind_key (b : binding) (key : string) (d : Dialog) :
  bindings (bind_key b key d) = bindings d ++ [(b, key)].
Proof. reflexivity. Qed.

Lemma bindings_connect (object signal : string) (cb : Callback) (d : Dialog) :
  bindings (connect object signal cb d) = bindings d.
Proof. reflexivity. Qed.

Lemma bindings_add_from_resource (path : string) (d : Dialog) :
  bindings (add_from_resource path d) = bindings d.
Proof. reflexivity. Qed.

Lemma getPreferences_bindings (d : Dialog) :
  bindings (getPreferences d).2
  = bindings d
    ++ [(Adjustment, "fire-animation-time");
        (Adjustment, "flame-movement-speed"); (Adjustment, "flame-scale");
        (Switch, "flame-3d-noise"); (ColorButton, "fire-color-1");
        (ColorButton, "fire-color-2"); (ColorButton, "fire-color-3");
        (ColorButton, "fire-color-4"); (ColorButton, "fire-color-5")].
Proof.
  unfold getPreferences, _createFirePresets, bindAdjustment, bindSwitch,
    bindColorButton.
  cbv zeta. cbn [snd].
  rewrite !bindings_connect, !bindings_bind_key, bindings_add_from_resource.
  by rewrite <- !app_assoc.
Qed.

(** X11: every key written or reset from the page has its widget. Whatever
    the dialog, [getPreferences] adds nine bindings, for nine distinct keys;
    each value the handler of a preset writes goes to a key bound to the
    widget of its type (an adjustment for the two numbers, a colour button
    for the five colours), and each key the reset handler resets is bound
    to a colour button. *)
Theorem handler_writes_are_bound (d : Dialog) (s : Settings.t) (p : Preset) :
  preset_keys_declared s →
  ∃ added s1 s2,
    bindings (getPreferences d).2 = bindings d ++ added
    ∧ length added = 9
    ∧ NoDup (snd <$> added)
    ∧ Settings.exec (load_preset p) s = Some s1
    ∧ Settings.exec reset_fire_colors s = Some s2
    ∧ Forall (λ w, ∃ b, binding_for w = Some b ∧ b ∈ added)
        (drop (length (Settings.journal s)) (Settings.journal s1))
    ∧ Forall (λ w, ∃ key, w = Settings.WReset key ∧ (ColorButton, key) ∈ added)
        (drop (length (Settings.journal s)) (Settings.journal s2))
    ∧ length (drop (length (Settings.journal s)) (Settings.journal s1)) = 7
    ∧ length (drop (length (Settings.journal s)) (Settings.journal s2)) = 5.
Proof.
  intros Hk.
  exists [(Adjustment, "fire-animation-time");
          (Adjustment, "flame-movement-speed"); (Adjustment, "flame-scale");
          (Switch, "flame-3d-noise"); (ColorButton, "fire-color-1");
          (ColorButton, "fire-color-2"); (ColorButton, "fire-color-3");
          (ColorButton, "fire-color-4"); (ColorButton, "fire-color-5")].
  eexists _, _.
  split; [apply getPreferences_bindings|].
  split; [reflexivity|].
  split; [apply (bool_decide_unpack _); vm_compute; exact I|].
  split; [by apply load_preset_exec|].
  split; [apply reset_fire_colors_exec, Hk|].
  cbn [Settings.journal]. rewrite !drop_app_length.
  split; [|split; [|split; reflexivity]].
  - unfold preset_writes.
    repeat (apply Forall_cons; split;
            [eexists; split; [reflexivity|in_list]|]).
    apply Forall_nil_2.
  - unfold color_keys. cbn [fmap list_fmap].
    repeat (apply Forall_cons; split;
            [eexists; split; [reflexivity|in_list]|]).
    apply Forall_nil_2.
Qed.

(** The bindings on the example dialog. *)
Lemma handler_writes_are_bound_witness :
  preset_keys_declared example_store
  ∧ ∃ q added,
      @presets example_host !! 2 = Some q
      ∧ bindings (getPreferences example_dialog).2 = added
      ∧ (Adjustment, "flame-scale") ∈ added
      ∧ (ColorButton, "fire-color-3") ∈ added.
Proof.
  assert (Hk : preset_keys_declared example_store) by keys_declared.
  split; [exact Hk|].
  destruct (@presets example_host !! 2) as [q|] eqn:Hq; [|discriminate].
  destruct (handler_writes_are_bound example_dialog example_store q Hk)
    as (added & s1 & s2 & Hb & _ & _ & _ & _ & _ & _ & _).
  rewrite getPreferences_bindings in Hb. apply app_inv_head in Hb. subst added.
  pose proof (getPreferences_bindings example_dialog) as Hb.
  exists q, (bindings (getPreferences example_dialog).2).
  split; [reflexivity|]. split; [reflexivity|].
  rewrite Hb. split; apply elem_of_app; right.
  - apply (list_elem_of_lookup_2 _ 2). reflexivity.
  - apply (list_elem_of_lookup_2 _ 6). reflexivity.
Defined.

(** ** Shader objects *)

(** X12: every object [createShader] returns is ready for an animation.
    Over any number of calls, each address returned holds an object that
    has resolved the eight uniforms, has had no uniform written beyond what
    the constructor of the base class wrote, and on which [beginAnimation]
    succeeds on any valid configuration. *)
Theorem created_shader_is_ready `{Host} (p : Process) (n a : nat)
    (actor : Actor) (s : Settings.t) (forOpening : bool) :
  config_valid s →
  a ∈ (createShader_times n p).1 →
  ∃ obj this',
    heap (createShader_times n p).2 !! a = Some obj
    ∧ located (glsl obj)
      = located (Shader_init (fire (createShader p).2))
        ++ ["uGradient1"; "uGradient2"; "uGradient3"; "uGradient4";
            "uGradient5"; "u3DNoise"; "uScale"; "uMovementSpeed"]
    ∧ written (glsl obj) = written (Shader_init (fire (createShader p).2))
    ∧ beginAnimation actor s forOpening obj = Some this'
    ∧ length (written (glsl this'))
      = length (written (Shader_beginAnimation actor s forOpening (glsl obj)))
        + 8.
Proof.
  intros Hc Hin.
  destruct (createShader_times_spec n p) as (Ha & _ & Hh).
  rewrite Ha in Hin. apply elem_of_seq in Hin.
  set (effect := fire (createShader p).2) in *.
  destruct (_init_fields effect) as (Hl & Hw & Hug & Hun & Hus & Hum).
  destruct (beginAnimation_own_writes actor s forOpening (_init effect) Hc
              Hug Hun Hus Hum)
    as (this' & c1 & c2 & c3 & c4 & c5 & noise & sc & sp & Hb & _ & _ & _
        & _ & _ & _ & _ & _ & Hw').
  exists (_init effect), this'. split.
  { rewrite Hh, lookup_app_r by lia. apply lookup_replicate_2. lia. }
  split; [exact Hl|]. split; [exact Hw|]. split; [exact Hb|].
  rewrite Hw', length_app. reflexivity.
Qed.

(** Three calls on a process that has created no shader yet. *)
Lemma created_shader_is_ready_witness :
  config_valid example_store
  ∧ 2 ∈ (@createShader_times example_host 3
           (mkProcess (mkFire None) 0 [])).1
  ∧ ∃ obj this',
      heap (@createShader_times example_host 3
              (mkProcess (mkFire None) 0 [])).2 !! 2 = Some obj
      ∧ @beginAnimation example_host tt example_store true obj = Some this'
      ∧ length (written (glsl this')) = 9.
Proof.
  assert (Hc : config_valid example_store).
  { unfold config_valid, color_keys.
    repeat split; repeat constructor; vm_compute; by eexists. }
  assert (Hin : 2 ∈ (@createShader_times example_host 3
                       (mkProcess (mkFire None) 0 [])).1).
  { vm_compute. in_list. }
  split; [exact Hc|]. split; [exact Hin|].
  destruct (@created_shader_is_ready example_host
              (mkProcess (mkFire None) 0 []) 3 2 tt example_store true Hc Hin)
    as (obj & this' & H1 & _ & Hw & Hb & Hlen).
  exists obj, this'. split; [exact H1|]. split; [exact Hb|].
  rewrite Hlen. vm_compute in H1. injection H1 as <-. reflexivity.
Defined.

(** ** From a menu item to its preset *)

(** X13: every menu item leads to the preset it names. For a preset list of
    any length, also with display names that repeat, the detailed action
    names of the menu items are pairwise distinct, and the item at position
    [i] carries the display name of the preset at index [i] and the name,
    prefixed by [presets.], of an action of the group whose handler loads
    that very preset. *)
Theorem menu_item_leads_to_its_preset (ps : list Preset) (n : nat) :
  let built :=
    forEach add_preset ps 0 (Menu_new, {| group_id := n; actions := ∅ |}) in
  NoDup (snd <$> built.1)
  ∧ (∀ i label target,
       built.1 !! i = Some (label, target) →
       ∃ p a,
         ps !! i = Some p
         ∧ label = name p
         ∧ target = "presets." +:+ action_name a
         ∧ actions built.2 !! action_name a = Some a
         ∧ activate a = load_preset p).
Proof.
  intros built. subst built. rewrite forEach_add_preset_menu.
  cbn [app Menu_new]. split.
  - apply NoDup_alt. intros i j x.
    rewrite !list_lookup_fmap.
    rewrite !(list_lookup_imap (λ k, item_of (0 + k))).
    destruct (ps !! i) as [p|]; [|done]. destruct (ps !! j) as [q|]; [|done].
    cbn. intros [= <-] [= Heq]. unfold groupName in Heq.
    simplify_eq/=. by apply (inj pretty).
  - intros i label target.
    rewrite (list_lookup_imap (λ k, item_of (0 + k))).
    destruct (ps !! i) as [p|] eqn:Hp; [|done]. cbn. intros [= <- <-].
    exists p, (action_of i p). split; [done|]. split; [done|].
    split; [done|]. split; [|done].
    apply (forEach_add_preset_hit ps 0 _ _ i p Hp).
Qed.
